(** * Webhook resource of the Artifactory provider: model and properties

    Shallow embedding of
    [pkg/artifactory/resource/webhook/resource_artifactory_webhook.go].

    Go's dynamically typed values ([interface{}]) are a small universe
    [value]; a failed type assertion or a call through a nil function value
    is a panic, made explicit by the [exec] monad.  String-keyed Go maps are
    [gmap string _]. *)

From Stdlib Require Import ZArith Ascii String.
From stdpp Require Import base option list strings gmap.

Local Open Scope string_scope.
Local Open Scope list_scope.
Local Open Scope Z_scope.
Local Set Warnings "-register-all".

(** ** Go run-time values *)

Module Go.

(** What an [interface{}] of the configuration layer can hold. [VSet] is a
    [*schema.Set], represented by the slice its [List()] method returns;
    [VList] is a Go slice, [VMap] a [map[string]interface{}]. *)
Inductive value : Type :=
| VNil
| VString (s : string)
| VBool (b : bool)
| VSet (elems : list value)
| VList (elems : list value)
| VMap (m : gmap string value).

(** A computation that may panic. *)
Inductive exec (A : Type) : Type :=
| Done (a : A)
| Panic.
Arguments Done {A} a.
Arguments Panic {A}.

Definition bind {A B} (c : exec A) (k : A → exec B) : exec B :=
  match c with
  | Done a => k a
  | Panic => Panic
  end.

#[global] Instance exec_ret : MRet exec := @Done.
#[global] Instance exec_bind : MBind exec := λ A B k c, bind c k.

(** [for _, x := range xs { ... }] with an accumulator threaded through. *)
Fixpoint foldM {A S} (body : S → A → exec S) (acc : S) (xs : list A) : exec S :=
  match xs with
  | [] => Done acc
  | x :: xs' => bind (body acc x) (λ acc', foldM body acc' xs')
  end.

(** Type assertions [v.(T)], which panic on any other dynamic type
    (including nil). *)
Definition as_string (v : value) : exec string :=
  match v with VString s => Done s | _ => Panic end.
Definition as_bool (v : value) : exec bool :=
  match v with VBool b => Done b | _ => Panic end.
Definition as_set (v : value) : exec (list value) :=
  match v with VSet l => Done l | _ => Panic end.
Definition as_map (v : value) : exec (gmap string value) :=
  match v with VMap m => Done m | _ => Panic end.

(** [m[k]] on a [map[string]interface{}]: nil when the key is absent. *)
Definition index (m : gmap string value) (k : string) : value :=
  default VNil (m !! k).

(** The order in which one [range] statement walks a map.  Go leaves it
    unspecified; all the model knows is that each entry is visited once. *)
Class RangeOrder := {
  range : gmap string value → list (string * value);
  range_perm : ∀ m, range m ≡ₚ map_to_list m
}.

End Go.
Export Go.

#[global] Instance key_order : RangeOrder :=
  {| range := map_to_list; range_perm := λ m, reflexivity _ |}.

(** ** The fragment of [regexp] syntax the package compiles

    [proxyNotFoundRegex] uses literal characters, [.] and postfix [*] only;
    [MustCompile] is modelled on that fragment.  [.] matches any character
    except a line feed (no [s] flag), and [MatchString] is unanchored. *)

Module Regexp.

Inductive atom : Type :=
| Lit (c : ascii)
| AnyChar.

Inductive piece : Type :=
| Once (a : atom)
| Star (a : atom).

Definition newline : ascii := "010"%char.
Definition dot : ascii := "."%char.
Definition star : ascii := "*"%char.

Definition atom_of (c : ascii) : atom :=
  if Ascii.eqb c dot then AnyChar else Lit c.

Fixpoint MustCompile (pattern : string) : list piece :=
  match pattern with
  | EmptyString => []
  | String c rest =>
      match rest with
      | String c' rest' =>
          if Ascii.eqb c' star then Star (atom_of c) :: MustCompile rest'
          else Once (atom_of c) :: MustCompile rest
      | EmptyString => [Once (atom_of c)]
      end
  end.

Definition accepts (a : atom) (c : ascii) : bool :=
  match a with
  | Lit c' => Ascii.eqb c' c
  | AnyChar => negb (Ascii.eqb c newline)
  end.

(** Does some prefix of [s] match the whole of [re]? *)
Fixpoint match_here (re : list piece) (s : string) : bool :=
  match re with
  | [] => true
  | Once a :: re' =>
      match s with
      | EmptyString => false
      | String c s' => accepts a c && match_here re' s'
      end
  | Star a :: re' =>
      (fix many (s : string) : bool :=
         match_here re' s ||
         match s with
         | EmptyString => false
         | String c s' => accepts a c && many s'
         end) s
  end.

(** Does [re] match somewhere inside [s]? *)
Fixpoint MatchString (re : list piece) (s : string) : bool :=
  match_here re s ||
  match s with
  | EmptyString => false
  | String _ s' => MatchString re s'
  end.

End Regexp.

(** ** The host's resource data (terraform-plugin-sdk, shared util/sdk)

    [attrs] holds the value of every attribute of the resource schema; the
    accessors below are the ones the webhook code calls. *)

Record ResourceData : Type := {
  Id : string;
  attrs : gmap string value
}.

Definition SetId (id : string) (d : ResourceData) : ResourceData :=
  {| Id := id; attrs := attrs d |}.

Definition is_zero (v : value) : bool :=
  match v with
  | VNil => true
  | VString s => bool_decide (s = "")
  | VBool b => negb b
  | VSet l | VList l => bool_decide (length l = 0%nat)
  | VMap m => bool_decide (map_to_list m = [])
  end.

Definition Get (d : ResourceData) (key : string) : value :=
  index (attrs d) key.

(** [d.GetOk(key)]: the value, and whether it is set to a non-zero value. *)
Definition GetOk (d : ResourceData) (key : string) : value * bool :=
  match attrs d !! key with
  | Some v => (v, negb (is_zero v))
  | None => (VNil, false)
  end.

(** [d.GetOkExists(key)]: the value, and whether it is set at all. *)
Definition GetOkExists (d : ResourceData) (key : string) : value * bool :=
  match attrs d !! key with
  | Some v => (v, true)
  | None => (VNil, false)
  end.

(** [utilsdk.CastToStringArr] *)
Definition CastToStringArr (arr : list value) : exec (list string) :=
  foldM (λ cpy r, s ← as_string r; mret (cpy ++ [s])) [] arr.

Definition GetString (d : ResourceData) (key : string) : exec string :=
  let '(v, ok) := GetOk d key in
  if ok then as_string v else mret "".

Definition GetBool (d : ResourceData) (key : string) : exec bool :=
  let '(v, ok) := GetOkExists d key in
  if ok then as_bool v else mret false.

Definition GetSet (d : ResourceData) (key : string) : exec (list string) :=
  let '(v, ok) := GetOkExists d key in
  if ok then (l ← as_set v; CastToStringArr l) else mret [].

(** ** Package [webhook] *)

Definition TypesSupported : list string := [
  "artifact";
  "artifact_property";
  "docker";
  "build";
  "release_bundle";
  "distribution";
  "artifactory_release_bundle";
  "destination";
  "user";
  "release_bundle_v2";
  "release_bundle_v2_promotion";
  "artifact_lifecycle"
].

Definition DomainEventTypesSupported : gmap string (list string) :=
  list_to_map [
    ("artifact", ["deployed"; "deleted"; "moved"; "copied"; "cached"]);
    ("artifact_property", ["added"; "deleted"]);
    ("docker", ["pushed"; "deleted"; "promoted"]);
    ("build", ["uploaded"; "deleted"; "promoted"]);
    ("release_bundle", ["created"; "signed"; "deleted"]);
    ("distribution", ["distribute_started"; "distribute_completed";
                      "distribute_aborted"; "distribute_failed";
                      "delete_started"; "delete_completed"; "delete_failed"]);
    ("artifactory_release_bundle",
      ["received"; "delete_started"; "delete_completed"; "delete_failed"]);
    ("destination",
      ["received"; "delete_started"; "delete_completed"; "delete_failed"]);
    ("user", ["locked"]);
    ("release_bundle_v2", ["release_bundle_v2_started";
                           "release_bundle_v2_failed";
                           "release_bundle_v2_completed"]);
    ("release_bundle_v2_promotion", ["release_bundle_v2_promotion_completed";
                                     "release_bundle_v2_promotion_failed";
                                     "release_bundle_v2_promotion_started"]);
    ("artifact_lifecycle", ["archive"; "restore"])
  ].

Record KeyValuePair : Type := {
  Name : string;
  Value : string
}.

(** A nil slice is [None]; [CustomHttpHeaders] is the one slice whose
    nil-ness the code inspects. *)
Record Handler : Type := {
  HandlerType : string;
  Url : string;
  Secret : string;
  UseSecretForSigning : bool;
  Proxy : string;
  CustomHttpHeaders : option (list KeyValuePair)
}.

Definition elems {A} (s : option (list A)) : list A := default [] s.

(** [append(s, x)] *)
Definition append {A} (s : option (list A)) (x : A) : option (list A) :=
  Some (elems s ++ [x]).

Definition webhooksUrl : string := "/event/api/v1/subscriptions".
Definition WhUrl : string := webhooksUrl +:+ "/{webhookKey}".
Definition currentSchemaVersion : Z := 2.

Definition unpackKeyValuePair `{RangeOrder} (keyValuePairs : gmap string value)
  : exec (option (list KeyValuePair)) :=
  foldM (λ kvPairs '(key, val),
           v ← as_string val;
           mret (append kvPairs {| Name := key; Value := v |}))
        None (range keyValuePairs).

Definition packKeyValuePair (keyValuePairs : option (list KeyValuePair))
  : gmap string value :=
  foldl (λ kvPairs keyValuePair,
           <[Name keyValuePair := VString (Value keyValuePair)]> kvPairs)
        ∅ (elems keyValuePairs).

(** The criteria struct types declared by the per-domain files. *)
Inductive CriteriaType : Type :=
| RepoWebhookCriteria
| BuildWebhookCriteria
| ReleaseBundleWebhookCriteria
| EmptyWebhookCriteria
| ReleaseBundleV2WebhookCriteria
| ReleaseBundleV2PromotionWebhookCriteria.

(** Each entry [T{}] is the zero value of struct type [T]. *)
Definition domainCriteriaLookup : gmap string CriteriaType :=
  list_to_map [
    ("artifact", RepoWebhookCriteria);
    ("artifact_property", RepoWebhookCriteria);
    ("docker", RepoWebhookCriteria);
    ("build", BuildWebhookCriteria);
    ("release_bundle", ReleaseBundleWebhookCriteria);
    ("distribution", ReleaseBundleWebhookCriteria);
    ("artifactory_release_bundle", ReleaseBundleWebhookCriteria);
    ("destination", ReleaseBundleWebhookCriteria);
    ("user", EmptyWebhookCriteria);
    ("release_bundle_v2", ReleaseBundleV2WebhookCriteria);
    ("release_bundle_v2_promotion", ReleaseBundleV2PromotionWebhookCriteria);
    ("artifact_lifecycle", EmptyWebhookCriteria)
  ].

Record BaseWebhookCriteria : Type := {
  IncludePatterns : list string;
  ExcludePatterns : list string
}.

Definition error : Type := string.

Definition emptyCriteriaValidation (criteria : gmap string value)
  : exec (option error) :=
  mret None.

(** [ResourceStateUpgradeV1]: the state map after the upgrade, and the
    error returned with it. *)
Definition ResourceStateUpgradeV1 (rawState : gmap string value)
  : gmap string value * option error :=
  let handler : gmap string value :=
    list_to_map [
      ("url", index rawState "url");
      ("secret", index rawState "secret");
      ("proxy", index rawState "proxy");
      ("custom_http_headers", index rawState "custom_http_headers")
    ] in
  let rawState := <["handler" := VList [VMap handler]]> rawState in
  let rawState := delete "url" rawState in
  let rawState := delete "secret" rawState in
  let rawState := delete "proxy" rawState in
  let rawState := delete "custom_http_headers" rawState in
  (rawState, None).

(** ** Collaborators

    The plugin SDK ([Host]), the per-domain files of the package
    ([Domains]) and the HTTP client ([Client]) are parameters of the
    model: the code of this file calls them but does not define them. *)

Class Host : Type := {
  (** [*schema.Schema] and [*schema.Resource] *)
  Schema : Type;
  Resource : Type;
  (** [s.Elem] asserted to be a [*schema.Resource] *)
  ElemResource : Schema → exec Resource;
  (** [d.Set(key, value)]: the updated data and the error, if any *)
  Set_ : ResourceData → string → value → ResourceData * option error
}.

Class Domains `{Host} : Type := {
  (** the typed criteria structs *)
  Criteria : Type;
  unpackRepoCriteria : gmap string value → BaseWebhookCriteria → exec Criteria;
  unpackBuildCriteria : gmap string value → BaseWebhookCriteria → exec Criteria;
  unpackReleaseBundleCriteria :
    gmap string value → BaseWebhookCriteria → exec Criteria;
  unpackEmptyCriteria : gmap string value → BaseWebhookCriteria → exec Criteria;
  unpackReleaseBundleV2Criteria :
    gmap string value → BaseWebhookCriteria → exec Criteria;
  unpackReleaseBundleV2PromotionCriteria :
    gmap string value → BaseWebhookCriteria → exec Criteria;
  packRepoCriteria : gmap string value → exec (gmap string value);
  packBuildCriteria : gmap string value → exec (gmap string value);
  packReleaseBundleCriteria : gmap string value → exec (gmap string value);
  packEmptyCriteria : gmap string value → exec (gmap string value);
  packReleaseBundleV2Criteria : gmap string value → exec (gmap string value);
  packReleaseBundleV2PromotionCriteria :
    gmap string value → exec (gmap string value);
  repoCriteriaValidation : gmap string value → exec (option error);
  buildCriteriaValidation : gmap string value → exec (option error);
  releaseBundleCriteriaValidation : gmap string value → exec (option error);
  releaseBundleV2CriteriaValidation : gmap string value → exec (option error);
  repoWebhookSchema : string → Z → bool → gmap string Schema;
  buildWebhookSchema : string → Z → bool → gmap string Schema;
  releaseBundleWebhookSchema : string → Z → bool → gmap string Schema;
  userWebhookSchema : string → Z → bool → gmap string Schema;
  releaseBundleV2WebhookSchema : string → Z → bool → gmap string Schema;
  releaseBundleV2PromotionWebhookSchema :
    string → Z → bool → gmap string Schema;
  artifactLifecycleWebhookSchema : string → Z → bool → gmap string Schema
}.

Section Model.
Context `{domains : Domains}.

(** What the [interface{}] field [EventFilter.Criteria] holds: a value left
    by the JSON decoder ([Dyn VNil] is the nil interface), the zero value of
    a criteria struct, or a criteria struct built by a domain's unpack
    function. *)
Inductive criteria : Type :=
| Dyn (v : value)
| ZeroCriteria (t : CriteriaType)
| TypedCriteria (c : Criteria).

Definition nil_criteria : criteria := Dyn VNil.

Definition is_nil (c : criteria) : bool :=
  match c with Dyn VNil => true | _ => false end.

Record EventFilter : Type := {
  Domain : string;
  EventTypes : list string;
  Criteria_ : criteria
}.

Record BaseParams : Type := {
  Key : string;
  Description : string;
  Enabled : bool;
  EventFilter_ : EventFilter;
  Handlers : list Handler
}.

(** [BaseParams{}] *)
Definition zeroBaseParams : BaseParams :=
  {| Key := ""; Description := ""; Enabled := false;
     EventFilter_ := {| Domain := ""; EventTypes := []; Criteria_ := nil_criteria |};
     Handlers := [] |}.

Definition BaseParams_Id (w : BaseParams) : string := Key w.

(** [w.EventFilter.Criteria = c] *)
Definition withCriteria (w : BaseParams) (c : criteria) : BaseParams :=
  {| Key := Key w;
     Description := Description w;
     Enabled := Enabled w;
     EventFilter_ := {| Domain := Domain (EventFilter_ w);
                        EventTypes := EventTypes (EventFilter_ w);
                        Criteria_ := c |};
     Handlers := Handlers w |}.

(** *** The domain registry *)

Definition domainPackLookup
  : gmap string (gmap string value → exec (gmap string value)) :=
  list_to_map [
    ("artifact", packRepoCriteria);
    ("artifact_property", packRepoCriteria);
    ("docker", packRepoCriteria);
    ("build", packBuildCriteria);
    ("release_bundle", packReleaseBundleCriteria);
    ("distribution", packReleaseBundleCriteria);
    ("artifactory_release_bundle", packReleaseBundleCriteria);
    ("destination", packReleaseBundleCriteria);
    ("user", packEmptyCriteria);
    ("release_bundle_v2", packReleaseBundleV2Criteria);
    ("release_bundle_v2_promotion", packReleaseBundleV2PromotionCriteria);
    ("artifact_lifecycle", packEmptyCriteria)
  ].

Definition domainUnpackLookup
  : gmap string (gmap string value → BaseWebhookCriteria → exec Criteria) :=
  list_to_map [
    ("artifact", unpackRepoCriteria);
    ("artifact_property", unpackRepoCriteria);
    ("docker", unpackRepoCriteria);
    ("build", unpackBuildCriteria);
    ("release_bundle", unpackReleaseBundleCriteria);
    ("distribution", unpackReleaseBundleCriteria);
    ("artifactory_release_bundle", unpackReleaseBundleCriteria);
    ("destination", unpackReleaseBundleCriteria);
    ("user", unpackEmptyCriteria);
    ("release_bundle_v2", unpackReleaseBundleV2Criteria);
    ("release_bundle_v2_promotion", unpackReleaseBundleV2PromotionCriteria);
    ("artifact_lifecycle", unpackEmptyCriteria)
  ].

Definition domainSchemaLookup (version : Z) (isCustom : bool)
    (webhookType : string) : gmap string (gmap string Schema) :=
  list_to_map [
    ("artifact", repoWebhookSchema webhookType version isCustom);
    ("artifact_property", repoWebhookSchema webhookType version isCustom);
    ("docker", repoWebhookSchema webhookType version isCustom);
    ("build", buildWebhookSchema webhookType version isCustom);
    ("release_bundle", releaseBundleWebhookSchema webhookType version isCustom);
    ("distribution", releaseBundleWebhookSchema webhookType version isCustom);
    ("artifactory_release_bundle",
      releaseBundleWebhookSchema webhookType version isCustom);
    ("destination", releaseBundleWebhookSchema webhookType version isCustom);
    ("user", userWebhookSchema webhookType version isCustom);
    ("release_bundle_v2",
      releaseBundleV2WebhookSchema webhookType version isCustom);
    ("release_bundle_v2_promotion",
      releaseBundleV2PromotionWebhookSchema webhookType version isCustom);
    ("artifact_lifecycle",
      artifactLifecycleWebhookSchema webhookType version isCustom)
  ].

Definition domainCriteriaValidationLookup
  : gmap string (gmap string value → exec (option error)) :=
  list_to_map [
    ("artifact", repoCriteriaValidation);
    ("artifact_property", repoCriteriaValidation);
    ("docker", repoCriteriaValidation);
    ("build", buildCriteriaValidation);
    ("release_bundle", releaseBundleCriteriaValidation);
    ("distribution", releaseBundleCriteriaValidation);
    ("artifactory_release_bundle", releaseBundleCriteriaValidation);
    ("destination", releaseBundleCriteriaValidation);
    ("user", emptyCriteriaValidation);
    ("release_bundle_v2", releaseBundleV2CriteriaValidation);
    ("release_bundle_v2_promotion", emptyCriteriaValidation);
    ("artifact_lifecycle", emptyCriteriaValidation)
  ].

(** Calling the function stored under [key]: a missing key yields the nil
    function value, and calling that panics. *)
Definition call {F B} (table : gmap string F) (key : string)
    (apply : F → exec B) : exec B :=
  match table !! key with
  | Some f => apply f
  | None => Panic
  end.

(** The resource under [domainSchemaLookup(...)[webhookType][block].Elem]:
    a missing domain gives a nil map, a missing block a nil [*Schema], whose
    [Elem] cannot be read. *)
Definition blockResource (webhookType block : string) : exec Resource :=
  match domainSchemaLookup currentSchemaVersion false webhookType !! webhookType with
  | Some fields =>
      match fields !! block with
      | Some s => ElemResource s
      | None => Panic
      end
  | None => Panic
  end.

(** *** Criteria codec *)

(** The body of [unpackCriteria] for the one block [c] of the set. *)
Definition unpackCriteriaBlock (webhookType : string) (c : value)
  : exec criteria :=
  id ← as_map c;
  includes ← as_set (index id "include_patterns");
  includePatterns ← CastToStringArr includes;
  excludes ← as_set (index id "exclude_patterns");
  excludePatterns ← CastToStringArr excludes;
  let baseCriteria :=
    {| IncludePatterns := includePatterns;
       ExcludePatterns := excludePatterns |} in
  c ← call domainUnpackLookup webhookType (λ f, f id baseCriteria);
  mret (TypedCriteria c).

Definition unpackCriteria (d : ResourceData) (webhookType : string)
  : exec criteria :=
  let webhookCriteria := nil_criteria in
  let '(v, ok) := GetOk d "criteria" in
  if ok then
    criteria ← as_set v;
    if bool_decide (length criteria = 1%nat) then
      match criteria !! 0%nat with
      | Some c => unpackCriteriaBlock webhookType c
      | None => Panic
      end
    else mret webhookCriteria
  else mret webhookCriteria.

(** [MkLens(d)]: the data and the errors collected so far. *)
Definition Lens : Type := ResourceData * list error.

Definition MkLens (d : ResourceData) : Lens := (d, []).

Definition setValue (lens : Lens) (key : string) (v : value) : Lens :=
  let '(d, errors) := lens in
  match Set_ d key v with
  | (d', Some err) => (d', errors ++ [err])
  | (d', None) => (d', errors)
  end.

(** [schema.NewSet(schema.HashString, items)]: hashing asserts that each
    item is a string.  The set is represented by the items given. *)
Definition NewStringSet (items : list value) : exec value :=
  _ ← CastToStringArr items; mret (VSet items).

Definition as_list (v : value) : exec (list value) :=
  match v with VList l => Done l | _ => Panic end.

Definition patternsOf (criteria : gmap string value) (key : string)
  : exec (list value) :=
  match criteria !! key with
  | Some VNil | None => mret []
  | Some v => as_list v
  end.

Definition packCriteria (d : ResourceData) (webhookType : string)
    (criteria : gmap string value) : exec Lens :=
  resource ← blockResource webhookType "criteria";
  packedCriteria ← call domainPackLookup webhookType (λ f, f criteria);
  includePatterns ← patternsOf criteria "includePatterns";
  includeSet ← NewStringSet includePatterns;
  let packedCriteria := <["include_patterns" := includeSet]> packedCriteria in
  excludePatterns ← patternsOf criteria "excludePatterns";
  excludeSet ← NewStringSet excludePatterns;
  let packedCriteria := <["exclude_patterns" := excludeSet]> packedCriteria in
  mret (setValue (MkLens d) "criteria" (VSet [VMap packedCriteria])).

(** *** Handler codec *)

Definition packSecret (d : ResourceData) (url : string) : exec string :=
  let secret := "" in
  let '(v, ok) := GetOk d "handler" in
  if ok then
    handlers ← as_set v;
    foldM (λ secret handler,
             h ← as_map handler;
             u ← as_string (index h "url");
             if bool_decide (u = url) then as_string (index h "secret")
             else mret secret)
          secret handlers
  else mret secret.

(** One iteration of the loop of [unpackHandlers]. *)
Definition unpackHandler `{RangeOrder} (webhookHandlers : list Handler)
    (handler : value) : exec (list Handler) :=
  h ← as_map handler;
  url ← as_string (index h "url");
  if bool_decide (url ≠ "") then
    secret ← match h !! "secret" with
             | Some v => as_string v
             | None => mret ""
             end;
    useSecretForSigning ← match h !! "use_secret_for_signing" with
                          | Some v => as_bool v
                          | None => mret false
                          end;
    proxy ← match h !! "proxy" with
            | Some v => as_string v
            | None => mret ""
            end;
    customHttpHeaders ← match h !! "custom_http_headers" with
                        | Some v => m ← as_map v; unpackKeyValuePair m
                        | None => mret None
                        end;
    mret (webhookHandlers ++
          [{| HandlerType := "webhook";
              Url := url;
              Secret := secret;
              UseSecretForSigning := useSecretForSigning;
              Proxy := proxy;
              CustomHttpHeaders := customHttpHeaders |}])
  else mret webhookHandlers.

Definition unpackHandlers `{RangeOrder} (d : ResourceData)
  : exec (list Handler) :=
  let '(v, ok) := GetOk d "handler" in
  if ok then
    handlers ← as_set v;
    foldM unpackHandler [] handlers
  else mret [].

Definition unpackWebhook `{RangeOrder} (webhookType : string)
    (d : ResourceData) : exec BaseParams :=
  key ← GetString d "key";
  description ← GetString d "description";
  enabled ← GetBool d "enabled";
  eventTypes ← GetSet d "event_types";
  criteria ← unpackCriteria d webhookType;
  handlers ← unpackHandlers d;
  mret {| Key := key;
          Description := description;
          Enabled := enabled;
          EventFilter_ := {| Domain := webhookType;
                             EventTypes := eventTypes;
                             Criteria_ := criteria |};
          Handlers := handlers |}.

(** The configuration block built for one handler of the remote object. *)
Definition packHandler (d : ResourceData) (handler : Handler)
  : exec (gmap string value) :=
  secret ← packSecret d (Url handler);
  let packedHandler : gmap string value :=
    list_to_map [
      ("url", VString (Url handler));
      ("secret", VString secret);
      ("use_secret_for_signing", VBool (UseSecretForSigning handler));
      ("proxy", VString (Proxy handler))
    ] in
  mret (match CustomHttpHeaders handler with
        | Some _ =>
            <["custom_http_headers" :=
                VMap (packKeyValuePair (CustomHttpHeaders handler))]>
              packedHandler
        | None => packedHandler
        end).

(** The slice [packedHandlers] the loop of [packHandlers] builds. *)
Definition packedHandlers (d : ResourceData) (handlers : list Handler)
  : exec (list value) :=
  foldM (λ packed handler,
           packedHandler ← packHandler d handler;
           mret (packed ++ [VMap packedHandler]))
        [] handlers.

Definition packHandlers (webhookType : string) (d : ResourceData)
    (handlers : list Handler) : exec Lens :=
  resource ← blockResource webhookType "handler";
  packed ← packedHandlers d handlers;
  mret (setValue (MkLens d) "handler" (VSet packed)).

(** [diag.Diagnostics], by the call that built it. *)
Inductive Diagnostics : Type :=
| DiagNil
| DiagFromErr (err : error)
| DiagErrorf (format : string) (args : list string).

Definition packWebhook (webhookType : string) (d : ResourceData)
    (webhook : BaseParams) : exec (ResourceData * Diagnostics) :=
  let lens := MkLens d in
  let lens := setValue lens "key" (VString (Key webhook)) in
  let lens := setValue lens "description" (VString (Description webhook)) in
  let lens := setValue lens "enabled" (VBool (Enabled webhook)) in
  let '(d, errors) :=
    setValue lens "event_types"
      (VList (VString <$> EventTypes (EventFilter_ webhook))) in
  '(d, errors) ←
    (if is_nil (Criteria_ (EventFilter_ webhook)) then mret (d, errors)
     else
       criteria ← match Criteria_ (EventFilter_ webhook) with
                  | Dyn v => as_map v
                  | _ => Panic
                  end;
       '(d', errs) ← packCriteria d webhookType criteria;
       mret (d', errors ++ errs));
  '(d, errs) ← packHandlers webhookType d (Handlers webhook);
  let errors := errors ++ errs in
  if bool_decide (0 < length errors)%nat then
    mret (d, DiagErrorf "failed to pack webhook %q" errors)
  else mret (d, DiagNil).

(** *** The HTTP client (resty) *)

Record Response : Type := {
  StatusCode : Z;
  Body : string
}.

(** [resp.IsError()] *)
Definition IsError (resp : Response) : bool := 399 <? StatusCode resp.

Definition StatusNotFound : Z := 404.

Inductive Method : Type := GET | POST | PUT | DELETE.

Record Request : Type := {
  method : Method;
  url : string;
  PathParams : list (string * string);
  ReqBody : option BaseParams;
  (** the target of [SetResult], as it is before the call *)
  ResultTarget : option BaseParams;
  RetryConditions : list (Response → option error → bool)
}.

(** What a call leaves behind: the response and error it returns, the
    target of [SetResult] after decoding, and [artifactoryError.String()]. *)
Record Reply : Type := {
  Resp : Response;
  Err : option error;
  Result : BaseParams;
  ErrorString : string
}.

End Model.

Class Client `{Domains} : Type := {
  Execute : Request → Reply
}.

Section Controller.
Context `{client : Client} `{order : RangeOrder}.
Variable webhookType : string.

(** [domainCriteriaLookup[webhookType]] as an [interface{}]: nil for a
    missing key. *)
Definition criteriaTarget : criteria :=
  match domainCriteriaLookup !! webhookType with
  | Some t => ZeroCriteria t
  | None => nil_criteria
  end.

(** [webhook := BaseParams{}] followed by
    [webhook.EventFilter.Criteria = domainCriteriaLookup[webhookType]]. *)
Definition readTarget : BaseParams :=
  withCriteria zeroBaseParams criteriaTarget.

Definition readRequest (data : ResourceData) : Request :=
  {| method := GET;
     url := WhUrl;
     PathParams := [("webhookKey", Id data)];
     ReqBody := None;
     ResultTarget := Some readTarget;
     RetryConditions := [] |}.

Definition readWebhook (data : ResourceData)
  : exec (ResourceData * Diagnostics) :=
  let reply := Execute (readRequest data) in
  let webhook := Result reply in
  match Err reply with
  | Some err => mret (data, DiagFromErr err)
  | None =>
      if bool_decide (StatusCode (Resp reply) = StatusNotFound) then
        mret (SetId "" data, DiagNil)
      else if IsError (Resp reply) then
        mret (data, DiagErrorf "%s" [ErrorString reply])
      else packWebhook webhookType data webhook
  end.

Definition proxyNotFoundRegex : list Regexp.piece :=
  Regexp.MustCompile "proxy with key '.*' not found".

Definition retryOnProxyError (response : Response) (_r : option error)
  : bool :=
  Regexp.MatchString proxyNotFoundRegex (Body response).

Definition createRequest (webhook : BaseParams) : Request :=
  {| method := POST;
     url := webhooksUrl;
     PathParams := [];
     ReqBody := Some webhook;
     ResultTarget := None;
     RetryConditions := [retryOnProxyError] |}.

Definition createWebhook (data : ResourceData)
  : exec (ResourceData * Diagnostics) :=
  webhook ← unpackWebhook webhookType data;
  let reply := Execute (createRequest webhook) in
  match Err reply with
  | Some err => mret (data, DiagFromErr err)
  | None =>
      if IsError (Resp reply) then
        mret (data, DiagErrorf "%s" [ErrorString reply])
      else readWebhook (SetId (BaseParams_Id webhook) data)
  end.

Definition updateRequest (data : ResourceData) (webhook : BaseParams)
  : Request :=
  {| method := PUT;
     url := WhUrl;
     PathParams := [("webhookKey", Id data)];
     ReqBody := Some webhook;
     ResultTarget := None;
     RetryConditions := [retryOnProxyError] |}.

Definition updateWebhook (data : ResourceData)
  : exec (ResourceData * Diagnostics) :=
  webhook ← unpackWebhook webhookType data;
  let reply := Execute (updateRequest data webhook) in
  match Err reply with
  | Some err => mret (data, DiagFromErr err)
  | None =>
      if IsError (Resp reply) then
        mret (data, DiagErrorf "%s" [ErrorString reply])
      else readWebhook (SetId (BaseParams_Id webhook) data)
  end.

Definition deleteRequest (data : ResourceData) : Request :=
  {| method := DELETE;
     url := WhUrl;
     PathParams := [("webhookKey", Id data)];
     ReqBody := None;
     ResultTarget := None;
     RetryConditions := [] |}.

Definition deleteWebhook (data : ResourceData)
  : exec (ResourceData * Diagnostics) :=
  let reply := Execute (deleteRequest data) in
  match Err reply with
  | Some err => mret (data, DiagFromErr err)
  | None =>
      if bool_decide (StatusCode (Resp reply) = StatusNotFound) then
        mret (SetId "" data, DiagNil)
      else if IsError (Resp reply) then
        mret (data, DiagErrorf "%s" [ErrorString reply])
      else mret (data, DiagNil)
  end.

(** *** Diff validators

    The planned values of a [*schema.ResourceDiff] are read with the same
    accessors as resource data. *)

Definition unsupportedEventType (eventType : string) : error :=
  "event_type " +:+ eventType +:+ " not supported for domain " +:+ webhookType.

Fixpoint checkEventTypes (eventTypesSupported : list string)
    (eventTypes : list value) : exec (option error) :=
  match eventTypes with
  | [] => mret None
  | eventType :: rest =>
      s ← as_string eventType;
      if negb (bool_decide (s ∈ eventTypesSupported)) then
        mret (Some (unsupportedEventType s))
      else checkEventTypes eventTypesSupported rest
  end.

Definition eventTypesDiff (diff : ResourceData) : exec (option error) :=
  eventTypes ← as_set (Get diff "event_types");
  if bool_decide (length eventTypes = 0%nat) then mret None
  else
    let eventTypesSupported :=
      default [] (DomainEventTypesSupported !! webhookType) in
    checkEventTypes eventTypesSupported eventTypes.

Definition criteriaDiff (diff : ResourceData) : exec (option error) :=
  let '(resource, ok) := GetOk diff "criteria" in
  if ok then
    criteria ← as_set resource;
    if bool_decide (length criteria = 0%nat) then mret None
    else
      match criteria !! 0%nat with
      | Some c =>
          m ← as_map c;
          call domainCriteriaValidationLookup webhookType (λ f, f m)
      | None => Panic
      end
  else mret None.

End Controller.

(** * Vocabulary of the statements

    Typed views of the dynamically typed data and the relations the
    properties below are stated with. *)

Definition is_string_entry (kv : string * value) : Prop :=
  ∃ s, kv.2 = VString s.

(** The pair the loop of [unpackKeyValuePair] appends for a map entry
    whose value is a string. *)
Definition entry_pair (kv : string * value) : KeyValuePair :=
  {| Name := kv.1;
     Value := match kv.2 with VString s => s | _ => "" end |}.

Definition flatFields : list string :=
  ["url"; "secret"; "proxy"; "custom_http_headers"].

(** The handler entry the upgrade synthesizes from the flat fields. *)
Definition upgradedHandler (rawState : gmap string value) : value :=
  VList [VMap (list_to_map [
    ("url", index rawState "url");
    ("secret", index rawState "secret");
    ("proxy", index rawState "proxy");
    ("custom_http_headers", index rawState "custom_http_headers")])].

(** The program of a pattern made of literal characters only. *)
Fixpoint literal (lit : string) : list Regexp.piece :=
  match lit with
  | EmptyString => []
  | String c lit' => Regexp.Once (Regexp.Lit c) :: literal lit'
  end.

Fixpoint no_newline (x : string) : Prop :=
  match x with
  | EmptyString => True
  | String c x' => c ≠ Regexp.newline ∧ no_newline x'
  end.

(** A handler block of the configuration, as the resource schema types it:
    [url] is always there; the other keys may be missing from the map. *)
Record HandlerBlock : Type := {
  block_url : string;
  block_secret : option string;
  block_use_secret_for_signing : option bool;
  block_proxy : option string;
  block_custom_http_headers : option (gmap string string)
}.

Definition put (key : string) (v : option value) (m : gmap string value)
  : gmap string value :=
  match v with
  | Some v => <[key := v]> m
  | None => m
  end.

(** The [map[string]interface{}] the host hands over for a block. *)
Definition block_map (b : HandlerBlock) : gmap string value :=
  <["url" := VString (block_url b)]>
    (put "secret" (VString <$> block_secret b)
      (put "use_secret_for_signing" (VBool <$> block_use_secret_for_signing b)
        (put "proxy" (VString <$> block_proxy b)
          (put "custom_http_headers"
            ((λ headers : gmap string string, VMap (VString <$> headers))
               <$> block_custom_http_headers b) ∅)))).

Definition block_value (b : HandlerBlock) : value := VMap (block_map b).

Definition header_pair (kv : string * string) : KeyValuePair :=
  {| Name := kv.1; Value := kv.2 |}.

(** [h] is what [unpackHandlers] makes of block [b]. *)
Definition unpacked_from (b : HandlerBlock) (h : Handler) : Prop :=
  HandlerType h = "webhook"
  ∧ Url h = block_url b
  ∧ Secret h = default "" (block_secret b)
  ∧ UseSecretForSigning h = default false (block_use_secret_for_signing b)
  ∧ Proxy h = default "" (block_proxy b)
  ∧ elems (CustomHttpHeaders h)
    ≡ₚ header_pair <$> map_to_list (default ∅ (block_custom_http_headers b))
  ∧ packKeyValuePair (CustomHttpHeaders h)
    = VString <$> default ∅ (block_custom_http_headers b).

(** The secret [packSecret] ends with after walking the local handlers:
    every handler with the given url overwrites it. *)
Definition local_secret (url : string) (locals : list HandlerBlock)
    (secret : string) : string :=
  foldl (λ secret b,
           if bool_decide (block_url b = url)
           then default "" (block_secret b) else secret)
        secret locals.

Definition has_secret (b : HandlerBlock) : Prop := is_Some (block_secret b).

(** The configuration block [packHandlers] builds for the remote handler
    [remote], given the handlers [locals] of the local state. *)
Definition packed_from (locals : list HandlerBlock) (remote : Handler)
    (packed : value) : Prop :=
  ∃ m : gmap string value,
    packed = VMap m
    ∧ dom m = {[ "url"; "secret"; "use_secret_for_signing"; "proxy" ]}
              ∪ match CustomHttpHeaders remote with
                | Some _ => {[ "custom_http_headers" ]}
                | None => ∅
                end
    ∧ m !! "url" = Some (VString (Url remote))
    ∧ m !! "use_secret_for_signing"
      = Some (VBool (UseSecretForSigning remote))
    ∧ m !! "proxy" = Some (VString (Proxy remote))
    ∧ m !! "custom_http_headers"
      = (λ kvs, VMap (packKeyValuePair (Some kvs)))
        <$> CustomHttpHeaders remote
    ∧ (∃ secret, m !! "secret" = Some (VString secret)
         ∧ ((∀ b, b ∈ locals → block_url b ≠ Url remote) → secret = "")
         ∧ (∀ b, b ∈ locals → block_url b = Url remote →
              (∀ b', b' ∈ locals → block_url b' = Url remote →
                     block_secret b' = block_secret b) →
              Some secret = block_secret b)).

(** An outcome that reports an error. *)
Definition is_error (diags : Diagnostics) : Prop := diags ≠ DiagNil.

(** Criteria that [packWebhook] can pack: nil, or an object left by the
    JSON decoder. *)
Definition packable `{Domains} (c : criteria) : Prop :=
  c = nil_criteria ∨ ∃ m, c = Dyn (VMap m).

(** What every handler sent to the remote system satisfies. *)
Definition sendable (h : Handler) : Prop :=
  HandlerType h = "webhook" ∧ Url h ≠ "".

(** The event types a domain allows: none for a key the table lacks. *)
Definition allowedEventTypes (webhookType : string) : list string :=
  default [] (DomainEventTypesSupported !! webhookType).

Definition is_string_value (v : value) : Prop := ∃ s, v = VString s.

(** The domains whose criteria validation is [emptyCriteriaValidation]. *)
Definition unvalidatedDomains : list string :=
  ["user"; "release_bundle_v2_promotion"; "artifact_lifecycle"].

(** The handler [h] with its [Secret] field replaced. *)
Definition with_secret (secret : string) (h : Handler) : Handler :=
  {| HandlerType := HandlerType h;
     Url := Url h;
     Secret := secret;
     UseSecretForSigning := UseSecretForSigning h;
     Proxy := Proxy h;
     CustomHttpHeaders := CustomHttpHeaders h |}.

(** The custom headers a block has after a round trip through
    [unpackHandlers] and [packHandlers]: an empty map does not come back. *)
Definition round_trip_headers (b : HandlerBlock) : option value :=
  match block_custom_http_headers b with
  | Some headers =>
      if decide (headers = ∅) then None else Some (VMap (VString <$> headers))
  | None => None
  end.

(** A pattern field of a decoded criteria object: missing, JSON null, or a
    list of strings. *)
Definition json_patterns (field : option value) (patterns : list string)
  : Prop :=
  (field = None ∧ patterns = [])
  ∨ (field = Some VNil ∧ patterns = [])
  ∨ field = Some (VList (VString <$> patterns)).

(** The host never rejects a [Set]. *)
Definition set_never_fails `{Host} : Prop :=
  ∀ d key v, (Set_ d key v).2 = None.

(** The functions the registry should hold for a criteria struct type. *)
Definition unpackerOf `{Domains} (t : CriteriaType)
  : gmap string value → BaseWebhookCriteria → exec Criteria :=
  match t with
  | RepoWebhookCriteria => unpackRepoCriteria
  | BuildWebhookCriteria => unpackBuildCriteria
  | ReleaseBundleWebhookCriteria => unpackReleaseBundleCriteria
  | EmptyWebhookCriteria => unpackEmptyCriteria
  | ReleaseBundleV2WebhookCriteria => unpackReleaseBundleV2Criteria
  | ReleaseBundleV2PromotionWebhookCriteria =>
      unpackReleaseBundleV2PromotionCriteria
  end.

Definition packerOf `{Domains} (t : CriteriaType)
  : gmap string value → exec (gmap string value) :=
  match t with
  | RepoWebhookCriteria => packRepoCriteria
  | BuildWebhookCriteria => packBuildCriteria
  | ReleaseBundleWebhookCriteria => packReleaseBundleCriteria
  | EmptyWebhookCriteria => packEmptyCriteria
  | ReleaseBundleV2WebhookCriteria => packReleaseBundleV2Criteria
  | ReleaseBundleV2PromotionWebhookCriteria =>
      packReleaseBundleV2PromotionCriteria
  end.

Definition validationOf `{Domains} (t : CriteriaType)
  : gmap string value → exec (option error) :=
  match t with
  | RepoWebhookCriteria => repoCriteriaValidation
  | BuildWebhookCriteria => buildCriteriaValidation
  | ReleaseBundleWebhookCriteria => releaseBundleCriteriaValidation
  | EmptyWebhookCriteria => emptyCriteriaValidation
  | ReleaseBundleV2WebhookCriteria => releaseBundleV2CriteriaValidation
  | ReleaseBundleV2PromotionWebhookCriteria => emptyCriteriaValidation
  end.

(** ** Sample collaborators, for running the model *)

(** A host whose [Set] stores the value and never fails, with one schema
    shape for every block. *)
Definition sample_host : Host :=
  {| Schema := unit;
     Resource := unit;
     ElemResource := λ _, Done ();
     Set_ := λ d key v,
       ({| Id := Id d; attrs := <[key := v]> (attrs d) |}, None) |}.

Definition sample_schema (webhookType : string) (version : Z) (isCustom : bool)
  : gmap string (@Schema sample_host) :=
  {[ "criteria" := (); "handler" := () ]}.

(** Per-domain functions that tag the common patterns with the struct type
    they build, pack a criteria object unchanged and accept every block. *)
Definition sample_domains : @Domains sample_host :=
  {| Criteria := CriteriaType * BaseWebhookCriteria;
     unpackRepoCriteria := λ _ base, Done (RepoWebhookCriteria, base);
     unpackBuildCriteria := λ _ base, Done (BuildWebhookCriteria, base);
     unpackReleaseBundleCriteria :=
       λ _ base, Done (ReleaseBundleWebhookCriteria, base);
     unpackEmptyCriteria := λ _ base, Done (EmptyWebhookCriteria, base);
     unpackReleaseBundleV2Criteria :=
       λ _ base, Done (ReleaseBundleV2WebhookCriteria, base);
     unpackReleaseBundleV2PromotionCriteria :=
       λ _ base, Done (ReleaseBundleV2PromotionWebhookCriteria, base);
     packRepoCriteria := Done;
     packBuildCriteria := Done;
     packReleaseBundleCriteria := Done;
     packEmptyCriteria := Done;
     packReleaseBundleV2Criteria := Done;
     packReleaseBundleV2PromotionCriteria := Done;
     repoCriteriaValidation := λ _, Done None;
     buildCriteriaValidation := λ _, Done None;
     releaseBundleCriteriaValidation := λ _, Done None;
     releaseBundleV2CriteriaValidation := λ _, Done None;
     repoWebhookSchema := sample_schema;
     buildWebhookSchema := sample_schema;
     releaseBundleWebhookSchema := sample_schema;
     userWebhookSchema := sample_schema;
     releaseBundleV2WebhookSchema := sample_schema;
     releaseBundleV2PromotionWebhookSchema := sample_schema;
     artifactLifecycleWebhookSchema := sample_schema |}.

(** A server that answers every request with the same status and body and
    decodes nothing. *)
Definition sample_client (status : Z) (body : string)
  : @Client sample_host sample_domains :=
  {| Execute := λ req,
       {| Resp := {| StatusCode := status; Body := body |};
          Err := None;
          Result := default zeroBaseParams (ResultTarget req);
          ErrorString := body |} |}.

(** A server that has the subscription [served] and answers every request
    with status 200. *)
Definition serving_client (served : @BaseParams sample_host sample_domains)
  : @Client sample_host sample_domains :=
  {| Execute := λ req,
       {| Resp := {| StatusCode := 200; Body := "" |};
          Err := None;
          Result := served;
          ErrorString := "" |} |}.

(** A transport that fails before any response arrives. *)
Definition broken_client (err : error) : @Client sample_host sample_domains :=
  {| Execute := λ req,
       {| Resp := {| StatusCode := 0; Body := "" |};
          Err := Some err;
          Result := default zeroBaseParams (ResultTarget req);
          ErrorString := "" |} |}.

Definition docker_diff : ResourceData :=
  {| Id := ""; attrs := {[ "event_types" := VSet [VString "pushed"] ]} |}.

Definition two_blocks : list HandlerBlock := [
  {| block_url := "https://h/";
     block_secret := Some "s";
     block_use_secret_for_signing := Some true;
     block_proxy := Some "p";
     block_custom_http_headers := Some {[ "X-Token" := "t" ]} |};
  {| block_url := "";
     block_secret := Some "";
     block_use_secret_for_signing := Some false;
     block_proxy := Some "";
     block_custom_http_headers := None |}
].

Definition local_state : ResourceData :=
  {| Id := "wh1";
     attrs := {[ "handler" := VSet (block_value <$> two_blocks) ]} |}.

Definition remote_handlers : list Handler := [
  {| HandlerType := "webhook"; Url := "https://h/"; Secret := "";
     UseSecretForSigning := true; Proxy := "p"; CustomHttpHeaders := None |};
  {| HandlerType := "webhook"; Url := "https://new/"; Secret := "";
     UseSecretForSigning := false; Proxy := ""; CustomHttpHeaders := Some [] |}
].

Definition criteria_block (includes excludes : list string) : value :=
  VMap (list_to_map [
    ("include_patterns", VSet (VString <$> includes));
    ("exclude_patterns", VSet (VString <$> excludes));
    ("any_local", VBool true)]).

Definition one_criteria_data : ResourceData :=
  {| Id := "wh1";
     attrs := {[ "criteria" := VSet [criteria_block ["a/**"] ["tmp/**"]] ]} |}.

Definition two_criteria_data : ResourceData :=
  {| Id := "wh1";
     attrs := {[ "criteria" := VSet [criteria_block ["a/**"] ["tmp/**"];
                                     criteria_block ["b/**"] []] ]} |}.

(** A docker webhook with one handler and no criteria. *)
Definition docker_config : ResourceData :=
  {| Id := "";
     attrs := list_to_map [
       ("key", VString "wh1");
       ("description", VString "");
       ("enabled", VBool true);
       ("event_types", VSet [VString "pushed"]);
       ("criteria", VSet []);
       ("handler", VSet [block_value
          {| block_url := "https://h/";
             block_secret := Some "";
             block_use_secret_for_signing := Some false;
             block_proxy := Some "";
             block_custom_http_headers := Some ∅ |}])] |}.

Definition docker_webhook : @BaseParams sample_host sample_domains :=
  {| Key := "wh1";
     Description := "";
     Enabled := true;
     EventFilter_ := {| Domain := "docker"; EventTypes := ["pushed"];
                        Criteria_ := nil_criteria |};
     Handlers := [{| HandlerType := "webhook"; Url := "https://h/";
                     Secret := ""; UseSecretForSigning := false; Proxy := "";
                     CustomHttpHeaders := None |}] |}.

(** The docker webhook, already created under another key. *)
Definition docker_state : ResourceData :=
  {| Id := "wh0"; attrs := attrs docker_config |}.

(** What [unpackWebhook] makes of [one_criteria_data] for docker. *)
Definition one_criteria_webhook : @BaseParams sample_host sample_domains :=
  {| Key := "";
     Description := "";
     Enabled := false;
     EventFilter_ :=
       {| Domain := "docker"; EventTypes := [];
          Criteria_ :=
            @TypedCriteria sample_host sample_domains
              (RepoWebhookCriteria,
               {| IncludePatterns := ["a/**"];
                  ExcludePatterns := ["tmp/**"] |}) |};
     Handlers := [] |}.

(** Requested event types: one allowed, one not, then a value that is not
    even a string. *)
Definition mixed_event_types : ResourceData :=
  {| Id := "";
     attrs := {[ "event_types" :=
                   VSet [VString "pushed"; VString "cached"; VBool true] ]} |}.

Definition old_block : HandlerBlock :=
  {| block_url := "https://h/";
     block_secret := Some "old";
     block_use_secret_for_signing := None;
     block_proxy := None;
     block_custom_http_headers := None |}.

Definition new_block : HandlerBlock :=
  {| block_url := "https://h/";
     block_secret := Some "new";
     block_use_secret_for_signing := None;
     block_proxy := None;
     block_custom_http_headers := None |}.

Definition other_block : HandlerBlock :=
  {| block_url := "https://other/";
     block_secret := Some "x";
     block_use_secret_for_signing := None;
     block_proxy := None;
     block_custom_http_headers := None |}.

(** A local state in which two handlers share a url. *)
Definition shared_url_state : ResourceData :=
  {| Id := "wh1";
     attrs := {[ "handler" :=
                   VSet (block_value <$> [old_block; new_block; other_block]) ]} |}.

(** A criteria object as decoded from a response: include patterns given,
    exclude patterns null. *)
Definition decoded_criteria : gmap string value :=
  list_to_map [
    ("includePatterns", VList [VString "a/**"]);
    ("excludePatterns", VNil);
    ("anyLocal", VBool true)].

Definition user_criteria_diff : ResourceData :=
  {| Id := ""; attrs := {[ "criteria" := VSet [VMap ∅] ]} |}.

(** * Properties *)

(** ** Key/value pairs *)

Section KeyValuePairs.
Context `{order : RangeOrder}.

Lemma packKeyValuePair_append kvs kv :
  packKeyValuePair (append kvs kv)
  = <[Name kv := VString (Value kv)]> (packKeyValuePair kvs).
Proof.
  unfold packKeyValuePair, append; simpl. by rewrite foldl_app.
Qed.

Lemma unpack_loop_pack (entries : list (string * value)) acc :
  Forall is_string_entry entries →
  ∃ kvs,
    foldM (λ kvPairs '(key, val),
             v ← as_string val;
             mret (append kvPairs {| Name := key; Value := v |}))
          acc entries = Done kvs
    ∧ packKeyValuePair kvs
      = foldl (λ m kv, <[kv.1 := kv.2]> m) (packKeyValuePair acc) entries
    ∧ elems kvs = elems acc ++ (entry_pair <$> entries).
Proof.
  intros Hall. revert acc.
  induction Hall as [|[k v] entries [s Hs] _ IH]; intros acc.
  - exists acc. by rewrite app_nil_r.
  - simpl in Hs; subst v. simpl.
    destruct (IH (append acc {| Name := k; Value := s |}))
      as (kvs & Hrun & Hpack & Helems).
    exists kvs. split; [exact Hrun|]. split.
    + by rewrite Hpack, packKeyValuePair_append.
    + rewrite Helems. unfold append; simpl. by rewrite <- app_assoc.
Qed.

Lemma foldl_insert_lookup (entries : list (string * value))
    (m0 : gmap string value) k :
  NoDup entries.*1 →
  foldl (λ m kv, <[kv.1 := kv.2]> m) m0 entries !! k
  = match (list_to_map entries : gmap string value) !! k with
    | Some v => Some v
    | None => m0 !! k
    end.
Proof.
  revert m0. induction entries as [|[k1 v1] entries IH]; intros m0 Hnd.
  - simpl. by rewrite lookup_empty.
  - rewrite fmap_cons, NoDup_cons in Hnd. destruct Hnd as [Hk1 Hnd].
    simpl. rewrite IH by done.
    destruct (decide (k = k1)) as [->|Hne].
    + rewrite (not_elem_of_list_to_map_1 _ k1) by done.
      by rewrite !lookup_insert_eq.
    + by rewrite !lookup_insert_ne by done.
Qed.

Lemma foldl_insert_range (m : gmap string value) :
  foldl (λ acc kv, <[kv.1 := kv.2]> acc) ∅ (range m) = m.
Proof.
  pose proof (range_perm m) as Hperm.
  assert (NoDup (range m).*1) as Hnd.
  { rewrite Hperm. apply NoDup_fst_map_to_list. }
  apply map_eq; intros k. rewrite foldl_insert_lookup by done.
  rewrite (list_to_map_proper _ _ Hnd Hperm), list_to_map_to_list.
  rewrite lookup_empty. by destruct (m !! k).
Qed.

Lemma unpackKeyValuePair_strings (m : gmap string value) :
  map_Forall (λ _ v, ∃ s, v = VString s) m →
  ∃ kvs, unpackKeyValuePair m = Done kvs
         ∧ packKeyValuePair kvs = m
         ∧ elems kvs = entry_pair <$> range m.
Proof.
  intros Hstr. unfold unpackKeyValuePair.
  destruct (unpack_loop_pack (range m) None) as (kvs & Hrun & Hpack & Helems).
  { apply Forall_forall; intros [k v] Hin.
    rewrite (range_perm m) in Hin. apply elem_of_map_to_list in Hin.
    exact (Hstr k v Hin). }
  exists kvs. split; [exact Hrun|]. split; [|done].
  rewrite Hpack. apply foldl_insert_range.
Qed.

Lemma unpackKeyValuePair_headers (headers : gmap string string) :
  ∃ kvs,
    unpackKeyValuePair (VString <$> headers) = Done kvs
    ∧ packKeyValuePair kvs = VString <$> headers
    ∧ elems kvs ≡ₚ (λ kv, {| Name := kv.1; Value := kv.2 |})
                    <$> map_to_list headers.
Proof.
  destruct (unpackKeyValuePair_strings (VString <$> headers))
    as (kvs & Hrun & Hpack & Helems).
  { intros k v. rewrite lookup_fmap.
    destruct (headers !! k) as [s|]; simpl; [|done].
    intros [= <-]. by exists s. }
  exists kvs. split; [done|]. split; [done|].
  rewrite Helems, (range_perm (VString <$> headers)), map_to_list_fmap.
  rewrite <- list_fmap_compose.
  erewrite list_fmap_ext; [reflexivity|]. by intros i [k v] _.
Qed.

(** C10: for every map from header names to string values, in whatever
    order the [range] statement walks it, [unpackKeyValuePair] returns a
    slice of pairs and [packKeyValuePair] turns that slice back into the
    original map. *)
Theorem C10_pack_unpack_identity (headers : gmap string string) :
  ∃ kvs,
    unpackKeyValuePair (VString <$> headers) = Done kvs
    ∧ packKeyValuePair kvs = VString <$> headers.
Proof.
  destruct (unpackKeyValuePair_headers headers) as (kvs & Hrun & Hpack & _).
  by exists kvs.
Qed.

End KeyValuePairs.

(** ** State upgrade *)

Lemma upgrade_lookup (rawState : gmap string value) k :
  (ResourceStateUpgradeV1 rawState).1 !! k
  = if decide (k ∈ flatFields) then None
    else if decide (k = "handler") then Some (upgradedHandler rawState)
    else rawState !! k.
Proof.
  unfold ResourceStateUpgradeV1; simpl.
  rewrite !lookup_delete, lookup_insert.
  destruct (decide (k ∈ flatFields)) as [Hin|Hout]; unfold flatFields in *.
  - rewrite !elem_of_cons, elem_of_nil in Hin.
    destruct Hin as [->|[->|[->|[->|[]]]]]; repeat case_decide; done.
  - rewrite !not_elem_of_cons in Hout. destruct Hout as (? & ? & ? & ? & _).
    repeat case_decide; subst; try done; congruence.
Qed.

Lemma handler_not_flat : "handler" ∉ flatFields.
Proof.
  unfold flatFields. rewrite !not_elem_of_cons.
  repeat split; [done..|apply not_elem_of_nil].
Qed.

(** C4: the upgrade never fails; it stores under [handler] a one-element
    list whose entry carries the values of the four flat fields (nil for an
    absent one), leaves none of the four flat fields in the state, keeps
    every other field, and removing a flat field that is absent changes
    nothing: the result is the state with the handler list added and only
    the flat fields that were present deleted. *)
Theorem C4_state_upgrade_v1 (rawState : gmap string value) :
  (ResourceStateUpgradeV1 rawState).2 = None
  ∧ (ResourceStateUpgradeV1 rawState).1 !! "handler"
    = Some (upgradedHandler rawState)
  ∧ (∀ k, k ∈ flatFields → (ResourceStateUpgradeV1 rawState).1 !! k = None)
  ∧ (∀ k, k ∉ flatFields → k ≠ "handler" →
       (ResourceStateUpgradeV1 rawState).1 !! k = rawState !! k)
  ∧ (ResourceStateUpgradeV1 rawState).1
    = foldr delete (<["handler" := upgradedHandler rawState]> rawState)
        (filter (λ k, is_Some (rawState !! k)) flatFields).
Proof.
  split; [done|]. split; [|split; [|split]].
  - rewrite upgrade_lookup.
    rewrite decide_False by apply handler_not_flat.
    by rewrite decide_True.
  - intros k Hk. rewrite upgrade_lookup. by case_decide.
  - intros k Hk Hh. rewrite upgrade_lookup. by repeat case_decide.
  - apply map_eq; intros k. rewrite upgrade_lookup.
    destruct (decide (k ∈ filter (λ k, is_Some (rawState !! k)) flatFields))
      as [Hin|Hout].
    + rewrite lookup_foldr_delete by done.
      apply list_elem_of_filter in Hin as [_ Hin]. by rewrite decide_True.
    + rewrite lookup_foldr_delete_not_elem_of by done.
      rewrite lookup_insert. rewrite list_elem_of_filter in Hout.
      destruct (decide (k ∈ flatFields)) as [Hflat|Hflat].
      * assert (rawState !! k = None) as Hnone.
        { destruct (rawState !! k) eqn:E; [|done]. destruct Hout; eauto. }
        rewrite decide_False; [by rewrite Hnone|].
        intros <-. by apply handler_not_flat.
      * repeat case_decide; subst; done.
Qed.

(** The scenario of the unit test: flat [url], [secret] and [proxy] move
    into the single handler and no flat field remains. *)
Example upgrade_scenario :
  (ResourceStateUpgradeV1
     (list_to_map [("url", VString "https://a"); ("secret", VString "s");
                   ("proxy", VString "p")])).1
  = {[ "handler" :=
         VList [VMap (list_to_map [
           ("url", VString "https://a"); ("secret", VString "s");
           ("proxy", VString "p"); ("custom_http_headers", VNil)])] ]}.
Proof. vm_compute. reflexivity. Qed.

(** ** Event-type validation *)

Lemma DomainEventTypesSupported_dom :
  dom DomainEventTypesSupported = list_to_set TypesSupported.
Proof. unfold DomainEventTypesSupported. by rewrite dom_list_to_map_L. Qed.

Lemma supported_domain_event_types webhookType :
  webhookType ∈ TypesSupported →
  is_Some (DomainEventTypesSupported !! webhookType).
Proof.
  intros Hin. apply elem_of_dom. rewrite DomainEventTypesSupported_dom.
  by apply elem_of_list_to_set.
Qed.

Lemma checkEventTypes_find webhookType allowed (eventTypes : list string) :
  checkEventTypes webhookType allowed (VString <$> eventTypes)
  = Done (unsupportedEventType webhookType ∘ snd
          <$> list_find (λ t, t ∉ allowed) eventTypes).
Proof.
  induction eventTypes as [|t eventTypes IH]; [done|].
  simpl. destruct (decide (t ∈ allowed)) as [Hin|Hout].
  - rewrite bool_decide_true by done. simpl.
    unfold fmap at 1 in IH. rewrite IH.
    rewrite decide_False by (intros Hn; by apply Hn).
    by destruct (list_find _ eventTypes) as [[i t']|].
  - rewrite bool_decide_false by done. simpl.
    by rewrite decide_True.
Qed.

Lemma eventTypesDiff_find webhookType diff (eventTypes : list string) :
  Get diff "event_types" = VSet (VString <$> eventTypes) →
  eventTypesDiff webhookType diff
  = Done (unsupportedEventType webhookType ∘ snd
          <$> list_find
                (λ t, t ∉ default [] (DomainEventTypesSupported !! webhookType))
                eventTypes).
Proof.
  intros Hget. unfold eventTypesDiff. rewrite Hget. simpl.
  rewrite length_fmap. case_bool_decide as Hlen.
  - by destruct eventTypes.
  - apply checkEventTypes_find.
Qed.

(** C2: for a domain of the enumeration, whose allowed event types are
    [allowed], and a set of requested event types, the validation returns
    an error exactly when some requested type is outside [allowed], and no
    error exactly when all are in it; an error it returns is for a
    requested type [t] outside [allowed], with the message
    ["event_type " t " not supported for domain " webhookType]. *)
Theorem C2_event_types_validation webhookType diff (eventTypes : list string) :
  webhookType ∈ TypesSupported →
  Get diff "event_types" = VSet (VString <$> eventTypes) →
  ∃ allowed,
    DomainEventTypesSupported !! webhookType = Some allowed
    ∧ ((∃ e, eventTypesDiff webhookType diff = Done (Some e))
       ↔ (∃ t, t ∈ eventTypes ∧ t ∉ allowed))
    ∧ (eventTypesDiff webhookType diff = Done None
       ↔ (∀ t, t ∈ eventTypes → t ∈ allowed))
    ∧ (∀ e, eventTypesDiff webhookType diff = Done (Some e) →
         ∃ t, t ∈ eventTypes ∧ (t ∉ allowed)
              ∧ e = "event_type " +:+ t +:+ " not supported for domain "
                    +:+ webhookType).
Proof.
  intros Hdom Hget.
  destruct (supported_domain_event_types _ Hdom) as [allowed Hallowed].
  exists allowed. split; [done|].
  rewrite (eventTypesDiff_find _ _ _ Hget), Hallowed. simpl.
  destruct (list_find (λ t, t ∉ allowed) eventTypes) as [[i t]|] eqn:Hfind.
  - apply list_find_Some in Hfind as (Hi & Hout & _).
    apply list_elem_of_lookup_2 in Hi. simpl. split; [split|split; [split|]].
    + intros _. by exists t.
    + intros _. by eexists.
    + intros [=].
    + intros Hall. destruct Hout. by apply Hall.
    + intros e [= <-]. by exists t.
  - apply list_find_None in Hfind. rewrite Forall_forall in Hfind. simpl.
    split; [split|split; [split|]].
    + intros (e & [=]).
    + intros (t & Ht & Hout). destruct (Hfind t Ht Hout).
    + intros _ t Ht. specialize (Hfind t Ht).
      by destruct (decide (t ∈ allowed)).
    + done.
    + intros e [=].
Qed.

Lemma C2_event_types_validation_witness :
  eventTypesDiff "docker" docker_diff = Done None.
Proof.
  destruct (C2_event_types_validation "docker" docker_diff ["pushed"])
    as (allowed & Hallowed & _ & Hpass & _).
  - unfold TypesSupported. rewrite !elem_of_cons. tauto.
  - reflexivity.
  - apply Hpass. vm_compute in Hallowed. injection Hallowed as <-.
    intros t ->%list_elem_of_singleton. rewrite !elem_of_cons. tauto.
Defined.

(** Each allowed type passes on its own, each other string fails. *)
Example docker_pushed_passes :
  eventTypesDiff "docker" docker_diff = Done None.
Proof. reflexivity. Qed.

Example docker_cached_fails :
  eventTypesDiff "docker"
    {| Id := ""; attrs := {[ "event_types" := VSet [VString "cached"] ]} |}
  = Done (Some "event_type cached not supported for domain docker").
Proof. reflexivity. Qed.

(** ** The retry condition *)

Module RegexpFacts.
Import Regexp.

Lemma append_empty (s : string) : "" +:+ s = s.
Proof. reflexivity. Qed.

Lemma append_String c (a s : string) :
  String c a +:+ s = String c (a +:+ s).
Proof. reflexivity. Qed.

Lemma match_here_literal lit re s :
  match_here (literal lit ++ re) s = true
  ↔ ∃ rest, s = lit +:+ rest ∧ match_here re rest = true.
Proof.
  revert s. induction lit as [|c lit IH]; intros s; simpl.
  - split; [by exists s|]. by intros (rest & -> & Hm).
  - destruct s as [|c' s]; simpl.
    + split; [done|]. by intros (rest & [=] & _).
    + rewrite andb_true_iff, Ascii.eqb_eq, IH. split.
      * intros (-> & rest & -> & Hm). by exists rest.
      * intros (rest & [= -> ->] & Hm). split; [done|]. by exists rest.
Qed.

Lemma match_here_any_star re s :
  match_here (Star AnyChar :: re) s = true
  ↔ ∃ x rest, s = x +:+ rest ∧ no_newline x ∧ match_here re rest = true.
Proof.
  induction s as [|c s IH].
  - simpl. rewrite orb_false_r. split.
    + intros Hm. by exists "", "".
    + intros (x & rest & Heq & _ & Hm).
      destruct x; [|done]. rewrite ?append_empty, ?append_String in Heq. by subst rest.
  - change (match_here (Star AnyChar :: re) (String c s))
      with (match_here re (String c s)
            || accepts AnyChar c && match_here (Star AnyChar :: re) s).
    rewrite orb_true_iff, andb_true_iff, IH. simpl.
    rewrite negb_true_iff, Ascii.eqb_neq. split.
    + intros [Hm|(Hc & x & rest & -> & Hx & Hm)].
      * by exists "", (String c s).
      * by exists (String c x), rest.
    + intros (x & rest & Heq & Hx & Hm). destruct x as [|c' x].
      * rewrite ?append_empty, ?append_String in Heq. subst rest. by left.
      * rewrite ?append_empty, ?append_String in Heq. injection Heq as <- ->. destruct Hx as [Hc Hx].
        right. split; [done|]. by exists x, rest.
Qed.

Lemma MatchString_somewhere re s :
  MatchString re s = true
  ↔ ∃ before rest, s = before +:+ rest ∧ match_here re rest = true.
Proof.
  induction s as [|c s IH]; simpl.
  - rewrite orb_false_r. split.
    + intros Hm. by exists "", "".
    + intros (before & rest & Heq & Hm).
      destruct before; [|done]. rewrite ?append_empty, ?append_String in Heq. by subst rest.
  - rewrite orb_true_iff, IH. split.
    + intros [Hm|(before & rest & -> & Hm)].
      * by exists "", (String c s).
      * by exists (String c before), rest.
    + intros (before & rest & Heq & Hm). destruct before as [|c' before].
      * rewrite ?append_empty, ?append_String in Heq. subst rest. by left.
      * rewrite ?append_empty, ?append_String in Heq. injection Heq as <- ->. right. by exists before, rest.
Qed.

Lemma proxyNotFoundRegex_program :
  proxyNotFoundRegex
  = literal "proxy with key '" ++ Star AnyChar :: literal "' not found" ++ [].
Proof. reflexivity. Qed.

End RegexpFacts.

Section Retry.
Context `{domains : Domains}.
Import Regexp RegexpFacts.

Lemma retryOnProxyError_matches (response : Response) (err : option error) :
  retryOnProxyError response err = true
  ↔ ∃ before key after,
      Body response
      = before +:+ "proxy with key '" +:+ key +:+ "' not found" +:+ after
      ∧ no_newline key.
Proof.
  unfold retryOnProxyError. rewrite proxyNotFoundRegex_program.
  rewrite MatchString_somewhere. split.
  - intros (before & rest & Hbody & Hm).
    apply match_here_literal in Hm as (rest1 & -> & Hm).
    apply match_here_any_star in Hm as (key & rest2 & -> & Hkey & Hm).
    apply match_here_literal in Hm as (after & -> & _).
    by exists before, key, after.
  - intros (before & key & after & Hbody & Hkey).
    exists before, ("proxy with key '" +:+ key +:+ "' not found" +:+ after).
    split; [done|].
    apply match_here_literal. eexists; split; [done|].
    apply match_here_any_star. exists key; eexists; split; [done|].
    split; [done|].
    apply match_here_literal. by exists after.
Qed.

(** C5: the requests of create and update carry one retry condition,
    [retryOnProxyError], and that condition holds exactly when the response
    body contains [proxy with key '], then any characters other than a line
    feed, then [' not found]; the error passed alongside is ignored. *)
Theorem C5_retry_exactly_on_proxy_not_found (data : ResourceData)
    (webhook : BaseParams) (response : Response) (err : option error) :
  RetryConditions (createRequest webhook) = [retryOnProxyError]
  ∧ RetryConditions (updateRequest data webhook) = [retryOnProxyError]
  ∧ (existsb (λ condition, condition response err)
       (RetryConditions (createRequest webhook)) = true
     ↔ ∃ before key after,
         Body response
         = before +:+ "proxy with key '" +:+ key +:+ "' not found" +:+ after
         ∧ no_newline key).
Proof.
  split; [done|]. split; [done|].
  simpl. rewrite orb_false_r. apply retryOnProxyError_matches.
Qed.

Example proxy_not_found_is_retried :
  retryOnProxyError
    {| StatusCode := 400; Body := "proxy with key 'my-proxy' not found" |}
    None = true.
Proof. reflexivity. Qed.

Example unrelated_error_is_not_retried :
  retryOnProxyError
    {| StatusCode := 400; Body := "webhook key already exists" |} None
  = false.
Proof. reflexivity. Qed.

End Retry.

(** ** Handler codec *)

Lemma put_lookup_ne key key' v (m : gmap string value) :
  key ≠ key' → put key v m !! key' = m !! key'.
Proof. intros Hne. destruct v; simpl; [by rewrite lookup_insert_ne|done]. Qed.

Lemma put_lookup_eq key v (m : gmap string value) :
  m !! key = None → put key v m !! key = v.
Proof. intros Hm. destruct v; simpl; [by rewrite lookup_insert_eq|done]. Qed.

Ltac block_lookup :=
  unfold block_map;
  repeat first
    [ rewrite lookup_insert_eq
    | rewrite lookup_insert_ne by done
    | rewrite put_lookup_ne by done
    | rewrite put_lookup_eq
    | rewrite lookup_empty ];
  try done.

Lemma block_map_url b : index (block_map b) "url" = VString (block_url b).
Proof. unfold index. by block_lookup. Qed.

Lemma block_map_secret b :
  block_map b !! "secret" = VString <$> block_secret b.
Proof. block_lookup. Qed.

Lemma block_map_use_secret b :
  block_map b !! "use_secret_for_signing"
  = VBool <$> block_use_secret_for_signing b.
Proof. block_lookup. Qed.

Lemma block_map_proxy b : block_map b !! "proxy" = VString <$> block_proxy b.
Proof. block_lookup. Qed.

Lemma block_map_headers b :
  block_map b !! "custom_http_headers"
  = (λ headers : gmap string string, VMap (VString <$> headers))
    <$> block_custom_http_headers b.
Proof. block_lookup. Qed.

Section UnpackHandlers.
Context `{order : RangeOrder}.

Lemma unpackHandler_block (acc : list Handler) (b : HandlerBlock) :
  ∃ r, unpackHandler acc (block_value b) = Done r
       ∧ (block_url b = "" → r = acc)
       ∧ (block_url b ≠ "" → ∃ h, r = acc ++ [h] ∧ unpacked_from b h).
Proof.
  unfold unpackHandler, block_value, unpacked_from. simpl.
  rewrite block_map_url. simpl.
  case_bool_decide as Hurl.
  - rewrite block_map_secret, block_map_use_secret, block_map_proxy,
      block_map_headers.
    destruct (block_custom_http_headers b) as [headers|]; simpl.
    + destruct (unpackKeyValuePair_headers headers)
        as (kvs & Hrun & Hpack & Helems).
      destruct (block_secret b), (block_use_secret_for_signing b),
        (block_proxy b); simpl; rewrite Hrun; simpl;
        (eexists; split; [reflexivity|]; split; [done|]; intros _;
         eexists; split; [reflexivity|]; simpl; by repeat split).
    + destruct (block_secret b), (block_use_secret_for_signing b),
        (block_proxy b); simpl;
        (eexists; split; [reflexivity|]; split; [done|]; intros _;
         eexists; split; [reflexivity|]; simpl;
         rewrite map_to_list_empty, fmap_empty; by repeat split).
  - exists acc. split; [done|]. split; [done|].
    intros Hne. by destruct Hurl.
Qed.

Lemma unpack_loop_blocks (blocks : list HandlerBlock) (acc : list Handler) :
  ∃ hs,
    foldM unpackHandler acc (block_value <$> blocks) = Done (acc ++ hs)
    ∧ Forall2 unpacked_from (filter (λ b, block_url b ≠ "") blocks) hs.
Proof.
  revert acc. induction blocks as [|b blocks IH]; intros acc.
  - exists []. split; [by rewrite app_nil_r|]. constructor.
  - rewrite fmap_cons.
    change (foldM unpackHandler acc (block_value b :: (block_value <$> blocks)))
      with (Go.bind (unpackHandler acc (block_value b))
              (λ acc', foldM unpackHandler acc' (block_value <$> blocks))).
    destruct (unpackHandler_block acc b) as (r & -> & Hskip & Hkeep). simpl.
    destruct (IH r) as (hs & -> & Hhs).
    destruct (decide (block_url b = "")) as [Hurl|Hurl].
    + rewrite (Hskip Hurl). exists hs. split; [done|].
      rewrite filter_cons_False; [done|]. by intros Hne.
    + destruct (Hkeep Hurl) as (h & -> & Hh). exists (h :: hs). split.
      * by rewrite <- app_assoc.
      * rewrite filter_cons_True by done. by constructor.
Qed.

(** C9: when the [handler] attribute holds the blocks [blocks],
    [unpackHandlers] returns one [Handler] for each block whose [url] is not
    empty, in the order of the blocks, and none for a block with an empty
    [url]; each has type [webhook], the block's url, secret, signing flag
    and proxy (the zero value where the key is missing) and the pairs of
    the block's custom header map. *)
Theorem C9_unpack_handlers (d : ResourceData) (blocks : list HandlerBlock) :
  attrs d !! "handler" = Some (VSet (block_value <$> blocks)) →
  ∃ hs,
    unpackHandlers d = Done hs
    ∧ Forall2 unpacked_from (filter (λ b, block_url b ≠ "") blocks) hs.
Proof.
  intros Hattr. unfold unpackHandlers, GetOk. rewrite Hattr. simpl.
  rewrite length_fmap. case_bool_decide as Hlen; simpl.
  - apply length_zero_iff_nil in Hlen. subst blocks. exists []. split; [done|].
    constructor.
  - destruct (unpack_loop_blocks blocks []) as (hs & Hrun & Hhs).
    exists hs. by split.
Qed.

End UnpackHandlers.

Lemma C9_unpack_handlers_witness :
  ∃ hs,
    unpackHandlers local_state = Done hs
    ∧ Forall2 unpacked_from (filter (λ b, block_url b ≠ "") two_blocks) hs.
Proof.
  apply (C9_unpack_handlers local_state two_blocks).
  reflexivity.
Defined.

Example unpack_two_blocks :
  unpackHandlers local_state
  = Done [{| HandlerType := "webhook"; Url := "https://h/"; Secret := "s";
             UseSecretForSigning := true; Proxy := "p";
             CustomHttpHeaders :=
               Some [{| Name := "X-Token"; Value := "t" |}] |}].
Proof. vm_compute. reflexivity. Qed.

Lemma packSecret_loop url (locals : list HandlerBlock) (secret : string) :
  Forall has_secret locals →
  foldM (λ secret handler,
           h ← as_map handler;
           u ← as_string (index h "url");
           if bool_decide (u = url) then as_string (index h "secret")
           else mret secret)
        secret (block_value <$> locals)
  = Done (local_secret url locals secret).
Proof.
  intros Hall. revert secret.
  induction Hall as [|b locals [s Hs] _ IH]; intros secret; [done|].
  rewrite fmap_cons. unfold local_secret. simpl.
  rewrite block_map_url. simpl.
  unfold index at 1. rewrite block_map_secret, Hs. simpl.
  case_bool_decide; simpl; apply IH.
Qed.

Lemma local_secret_cases url (locals : list HandlerBlock) (secret : string) :
  (local_secret url locals secret = secret
   ∧ ∀ b, b ∈ locals → block_url b ≠ url)
  ∨ (∃ b, b ∈ locals ∧ block_url b = url
          ∧ local_secret url locals secret = default "" (block_secret b)).
Proof.
  revert secret. induction locals as [|b locals IH]; intros secret.
  - left. split; [done|]. intros b Hb. by apply elem_of_nil in Hb.
  - unfold local_secret. simpl. fold (local_secret url locals).
    case_bool_decide as Hurl.
    + destruct (IH (default "" (block_secret b)))
        as [[Heq Hnone]|(b' & Hin & Hb' & Heq)].
      * right. exists b. split; [by left|]. by split.
      * right. exists b'. split; [by right|]. by split.
    + destruct (IH secret) as [[Heq Hnone]|(b' & Hin & Hb' & Heq)].
      * left. split; [done|]. intros b' [->|Hin]%elem_of_cons; [done|].
        by apply Hnone.
      * right. exists b'. split; [by right|]. by split.
Qed.

Lemma packSecret_locals d url (locals : list HandlerBlock) :
  attrs d !! "handler" = Some (VSet (block_value <$> locals)) →
  Forall has_secret locals →
  packSecret d url = Done (local_secret url locals "").
Proof.
  intros Hattr Hall. unfold packSecret, GetOk. rewrite Hattr. simpl.
  rewrite length_fmap. case_bool_decide as Hlen; simpl.
  - apply length_zero_iff_nil in Hlen. by subst locals.
  - by apply packSecret_loop.
Qed.

Section PackHandlers.
Context `{domains : Domains}.

Lemma packHandler_locals d (locals : list HandlerBlock) (remote : Handler) :
  attrs d !! "handler" = Some (VSet (block_value <$> locals)) →
  Forall has_secret locals →
  ∃ m, packHandler d remote = Done m ∧ packed_from locals remote (VMap m).
Proof.
  intros Hattr Hall. unfold packHandler.
  rewrite (packSecret_locals _ _ _ Hattr Hall). simpl.
  eexists. split; [reflexivity|]. eexists. split; [reflexivity|].
  assert (∃ secret, secret = local_secret (Url remote) locals ""
          ∧ ((∀ b, b ∈ locals → block_url b ≠ Url remote) → secret = "")
          ∧ (∀ b, b ∈ locals → block_url b = Url remote →
               (∀ b', b' ∈ locals → block_url b' = Url remote →
                      block_secret b' = block_secret b) →
               Some secret = block_secret b)) as (secret & Hsecret & Hnone & Hsome).
  { eexists. split; [reflexivity|].
    destruct (local_secret_cases (Url remote) locals "")
      as [[Heq Hno]|(b' & Hin' & Hurl' & Heq)]; split.
    - done.
    - intros b Hin Hurl. by destruct (Hno b Hin).
    - intros Hno. by destruct (Hno b' Hin').
    - intros b Hin Hurl Hsame. rewrite Heq, <- (Hsame b' Hin' Hurl').
      apply Forall_forall with (x := b') in Hall; [|done].
      destruct Hall as [s ->]. done. }
  rewrite <- Hsecret.
  destruct (CustomHttpHeaders remote) as [kvs|]; simpl.
  - split; [|split; [|split; [|split; [|split]]]]; try done.
    by exists secret.
  - split; [|split; [|split; [|split; [|split]]]]; try done.
    by exists secret.
Qed.

Lemma packedHandlers_loop d (locals : list HandlerBlock)
    (remotes : list Handler) (acc : list value) :
  attrs d !! "handler" = Some (VSet (block_value <$> locals)) →
  Forall has_secret locals →
  ∃ packed,
    foldM (λ packed handler,
             packedHandler ← packHandler d handler;
             mret (packed ++ [VMap packedHandler]))
          acc remotes = Done (acc ++ packed)
    ∧ Forall2 (packed_from locals) remotes packed.
Proof.
  intros Hattr Hall. revert acc.
  induction remotes as [|remote remotes IH]; intros acc.
  - exists []. split; [by rewrite app_nil_r|]. constructor.
  - destruct (packHandler_locals d locals remote Hattr Hall) as (m & Hrun & Hm).
    simpl. rewrite Hrun. simpl.
    destruct (IH (acc ++ [VMap m])) as (packed & -> & Hpacked).
    exists (VMap m :: packed). split; [by rewrite <- app_assoc|].
    by constructor.
Qed.

(** C3: with the handlers [locals] in the local state, [packHandlers]
    stores under [handler] one block per remote handler, in order.  The
    block has the remote handler's url, signing flag and proxy, its custom
    headers as a map when the remote slice is not nil, and a secret taken
    from the local state: the empty string when no local handler has the
    remote handler's url, and the secret of the local handler with that url
    otherwise (of any of them, when several have it and agree). *)
Theorem C3_pack_handlers_secret webhookType d (locals : list HandlerBlock)
    (remotes : list Handler) (resource : Resource) :
  attrs d !! "handler" = Some (VSet (block_value <$> locals)) →
  Forall has_secret locals →
  blockResource webhookType "handler" = Done resource →
  ∃ packed,
    packHandlers webhookType d remotes
    = Done (setValue (MkLens d) "handler" (VSet packed))
    ∧ Forall2 (packed_from locals) remotes packed.
Proof.
  intros Hattr Hall Hres. unfold packHandlers, packedHandlers.
  rewrite Hres. simpl.
  destruct (packedHandlers_loop d locals remotes [] Hattr Hall)
    as (packed & Hrun & Hpacked).
  rewrite Hrun. by exists packed.
Qed.

End PackHandlers.

(** ** Criteria codec and domain registry *)

Lemma CastToStringArr_loop (acc l : list string) :
  foldM (λ cpy r, s ← as_string r; mret (cpy ++ [s])) acc (VString <$> l)
  = Done (acc ++ l).
Proof.
  revert acc. induction l as [|s l IH]; intros acc.
  - by rewrite app_nil_r.
  - rewrite fmap_cons. simpl. unfold fmap in IH. rewrite IH.
    by rewrite <- app_assoc.
Qed.

Lemma CastToStringArr_strings (l : list string) :
  CastToStringArr (VString <$> l) = Done l.
Proof. apply CastToStringArr_loop. Qed.

Section Registry.
Context `{domains : Domains}.

Lemma domainCriteriaLookup_dom :
  dom domainCriteriaLookup = list_to_set TypesSupported.
Proof. unfold domainCriteriaLookup. by rewrite dom_list_to_map_L. Qed.

Lemma domainPackLookup_dom :
  dom domainPackLookup = list_to_set TypesSupported.
Proof. unfold domainPackLookup. by rewrite dom_list_to_map_L. Qed.

Lemma domainUnpackLookup_dom :
  dom domainUnpackLookup = list_to_set TypesSupported.
Proof. unfold domainUnpackLookup. by rewrite dom_list_to_map_L. Qed.

Lemma domainCriteriaValidationLookup_dom :
  dom domainCriteriaValidationLookup = list_to_set TypesSupported.
Proof. unfold domainCriteriaValidationLookup. by rewrite dom_list_to_map_L. Qed.

Lemma domainSchemaLookup_dom version isCustom webhookType :
  dom (domainSchemaLookup version isCustom webhookType)
  = list_to_set TypesSupported.
Proof. unfold domainSchemaLookup. by rewrite dom_list_to_map_L. Qed.

Lemma lookup_outside {A} (table : gmap string A) webhookType :
  dom table = list_to_set TypesSupported →
  webhookType ∉ TypesSupported →
  table !! webhookType = None.
Proof.
  intros Hdom Hout. apply not_elem_of_dom. rewrite Hdom.
  by rewrite elem_of_list_to_set.
Qed.

Lemma lookup_inside {A} (table : gmap string A) webhookType :
  dom table = list_to_set TypesSupported →
  webhookType ∈ TypesSupported →
  is_Some (table !! webhookType).
Proof.
  intros Hdom Hin. apply elem_of_dom. rewrite Hdom.
  by rewrite elem_of_list_to_set.
Qed.

(** What [unpackCriteriaBlock] returns for a block whose pattern sets hold
    strings, in a domain with unpack function [f]. *)
Lemma unpackCriteriaBlock_typed webhookType (id : gmap string value)
    (includes excludes : list string) f :
  id !! "include_patterns" = Some (VSet (VString <$> includes)) →
  id !! "exclude_patterns" = Some (VSet (VString <$> excludes)) →
  domainUnpackLookup !! webhookType = Some f →
  unpackCriteriaBlock webhookType (VMap id)
  = Go.bind (f id {| IncludePatterns := includes;
                     ExcludePatterns := excludes |})
            (λ c, Done (TypedCriteria c)).
Proof.
  intros Hinc Hexc Hf. unfold unpackCriteriaBlock, index, call. simpl.
  rewrite Hinc, Hexc, Hf. simpl.
  by rewrite !CastToStringArr_strings.
Qed.

(** C1 (amended): [unpackCriteria] unpacks the block of a [criteria] set
    that holds exactly one block; for a set with no block, for an unset
    attribute, and for a set with more than one block it returns nil. *)
Theorem C1_unpack_criteria_single_block webhookType d (blocks : list value) :
  attrs d !! "criteria" = Some (VSet blocks)
  ∨ (attrs d !! "criteria" = None ∧ blocks = []) →
  (∀ b, blocks = [b] →
        unpackCriteria d webhookType = unpackCriteriaBlock webhookType b)
  ∧ (length blocks ≠ 1%nat → unpackCriteria d webhookType = Done nil_criteria).
Proof.
  intros Hattr. unfold unpackCriteria, GetOk.
  destruct Hattr as [->|[-> ->]]; simpl.
  - split.
    + intros b ->. reflexivity.
    + intros Hlen. destruct blocks as [|b [|b' blocks]]; try done.
  - split; [intros b [=]|done].
Qed.

(** C6 (amended): each lookup table of the registry has an entry for the
    twelve enumerated domains and for no other key.  For a domain outside
    the enumeration a lookup yields the zero value: calling the missing
    pack, unpack or validation function, or reading a block of the missing
    schema, panics, while the criteria zero-value table yields nil and the
    event-type table an empty list of allowed types. *)
Theorem C6_registry_domains webhookType :
  webhookType ∉ TypesSupported →
  (dom DomainEventTypesSupported = list_to_set TypesSupported
   ∧ dom domainCriteriaLookup = list_to_set TypesSupported
   ∧ dom domainPackLookup = list_to_set TypesSupported
   ∧ dom domainUnpackLookup = list_to_set TypesSupported
   ∧ dom domainCriteriaValidationLookup = list_to_set TypesSupported
   ∧ ∀ version isCustom type,
       dom (domainSchemaLookup version isCustom type)
       = list_to_set TypesSupported)
  ∧ (∀ B (apply : _ → exec B), call domainPackLookup webhookType apply = Panic)
  ∧ (∀ B (apply : _ → exec B),
       call domainUnpackLookup webhookType apply = Panic)
  ∧ (∀ B (apply : _ → exec B),
       call domainCriteriaValidationLookup webhookType apply = Panic)
  ∧ (∀ block, blockResource webhookType block = Panic)
  ∧ criteriaTarget webhookType = nil_criteria
  ∧ default [] (DomainEventTypesSupported !! webhookType) = [].
Proof.
  intros Hout. split.
  { split; [apply DomainEventTypesSupported_dom|].
    split; [apply domainCriteriaLookup_dom|].
    split; [apply domainPackLookup_dom|].
    split; [apply domainUnpackLookup_dom|].
    split; [apply domainCriteriaValidationLookup_dom|].
    apply domainSchemaLookup_dom. }
  unfold call, blockResource, criteriaTarget.
  rewrite (lookup_outside _ _ domainPackLookup_dom Hout).
  rewrite (lookup_outside _ _ domainUnpackLookup_dom Hout).
  rewrite (lookup_outside _ _ domainCriteriaValidationLookup_dom Hout).
  rewrite (lookup_outside _ _ domainCriteriaLookup_dom Hout).
  rewrite (lookup_outside _ _ DomainEventTypesSupported_dom Hout).
  rewrite (lookup_outside _ _ (domainSchemaLookup_dom _ _ _) Hout).
  by repeat split.
Qed.

End Registry.

(** ** Resource controller *)

Section ControllerFacts.
Context `{client : Client} `{order : RangeOrder}.
Variable webhookType : string.

(** C7: once the configuration is unpacked into [webhook], a create whose
    transport fails, or whose response has an error status, returns an
    error and leaves the resource data, identity included, as it was;
    otherwise the identity is set to the webhook's key and the outcome is
    that of a Read of the data with that identity, which fetches the
    subscription under that key.  So the identity differs from the one
    before only if the create response was a success. *)
Theorem C7_create_sets_identity_after_success (data : ResourceData)
    (webhook : BaseParams) :
  unpackWebhook webhookType data = Done webhook →
  let reply := Execute (createRequest webhook) in
  (∀ err, Err reply = Some err →
     createWebhook webhookType data = Done (data, DiagFromErr err))
  ∧ (Err reply = None → IsError (Resp reply) = true →
     createWebhook webhookType data
     = Done (data, DiagErrorf "%s" [ErrorString reply]))
  ∧ (Err reply = None → IsError (Resp reply) = false →
     createWebhook webhookType data
     = readWebhook webhookType (SetId (Key webhook) data)
     ∧ Id (SetId (Key webhook) data) = Key webhook
     ∧ PathParams (readRequest webhookType (SetId (Key webhook) data))
       = [("webhookKey", Key webhook)])
  ∧ (∀ data' diags,
       createWebhook webhookType data = Done (data', diags) →
       (Err reply ≠ None ∨ IsError (Resp reply) = true →
        data' = data ∧ is_error diags)
       ∧ (Id data' ≠ Id data →
          Err reply = None ∧ IsError (Resp reply) = false)).
Proof.
  intros Hunpack reply. unfold createWebhook. rewrite Hunpack. simpl.
  fold reply. split; [|split; [|split]].
  - by intros err ->.
  - by intros -> ->.
  - by intros -> ->.
  - intros data' diags Hrun.
    destruct (Err reply) as [err|] eqn:Herr.
    + injection Hrun as <- <-. split; [done|]. by intros Hid.
    + destruct (IsError (Resp reply)) eqn:Hstatus.
      * injection Hrun as <- <-. split; [done|]. by intros Hid.
      * split; [|done]. by intros [Hne|Hne].
Qed.

(** C8: when the response to the GET of a read, or to the DELETE of a
    delete, has status 404, the operation returns no error and the data
    with its identity set to the empty string; when it has another error
    status, or the transport fails, the operation returns an error and the
    data unchanged. *)
Theorem C8_not_found_clears_identity (data : ResourceData) :
  let fetched := Execute (readRequest webhookType data) in
  let deleted := Execute (deleteRequest data) in
  (Err fetched = None → StatusCode (Resp fetched) = 404 →
     readWebhook webhookType data = Done (SetId "" data, DiagNil))
  ∧ (Err deleted = None → StatusCode (Resp deleted) = 404 →
     deleteWebhook data = Done (SetId "" data, DiagNil))
  ∧ Id (SetId "" data) = ""
  ∧ (Err fetched = None → StatusCode (Resp fetched) ≠ 404 →
     IsError (Resp fetched) = true →
     readWebhook webhookType data
     = Done (data, DiagErrorf "%s" [ErrorString fetched]))
  ∧ (Err deleted = None → StatusCode (Resp deleted) ≠ 404 →
     IsError (Resp deleted) = true →
     deleteWebhook data = Done (data, DiagErrorf "%s" [ErrorString deleted]))
  ∧ (∀ err, Err fetched = Some err →
     readWebhook webhookType data = Done (data, DiagFromErr err))
  ∧ (∀ err, Err deleted = Some err →
     deleteWebhook data = Done (data, DiagFromErr err)).
Proof.
  intros fetched deleted. unfold readWebhook, deleteWebhook.
  fold fetched deleted. unfold StatusNotFound.
  repeat split.
  - intros -> Hstatus. by rewrite bool_decide_true.
  - intros -> Hstatus. by rewrite bool_decide_true.
  - intros -> Hstatus ->. by rewrite bool_decide_false.
  - intros -> Hstatus ->. by rewrite bool_decide_false.
  - by intros err ->.
  - by intros err ->.
Qed.

End ControllerFacts.

(** ** Running computations that may panic *)

Lemma bind_Done {A B} (c : exec A) (k : A → exec B) (b : B) :
  Go.bind c k = Done b → ∃ a, c = Done a ∧ k a = Done b.
Proof. destruct c as [a|]; simpl; [|done]. intros Hk. by exists a. Qed.

Lemma foldM_invariant {A S} (P : S → Prop) (body : S → A → exec S)
    (acc : S) (xs : list A) (r : S) :
  (∀ acc x acc', P acc → body acc x = Done acc' → P acc') →
  P acc → foldM body acc xs = Done r → P r.
Proof.
  intros Hstep. revert acc. induction xs as [|x xs IH]; intros acc Hacc; simpl.
  - by intros [= <-].
  - intros (acc' & Hbody & Hrest)%bind_Done. eauto.
Qed.

Lemma foldM_app {A S} (body : S → A → exec S) (acc : S) (xs ys : list A) :
  foldM body acc (xs ++ ys)
  = Go.bind (foldM body acc xs) (λ acc', foldM body acc' ys).
Proof.
  revert acc. induction xs as [|x xs IH]; intros acc; simpl; [done|].
  destruct (body acc x) as [acc'|]; simpl; [apply IH|done].
Qed.

(** Unfolds a chain of binds that ended well, naming each step. *)
Ltac invert_binds H :=
  repeat match type of H with
  | Go.bind _ _ = Done _ =>
      let a := fresh "a" in
      let Ha := fresh "Hstep" in
      apply bind_Done in H as (a & Ha & H)
  | mbind _ _ = Done _ =>
      let a := fresh "a" in
      let Ha := fresh "Hstep" in
      apply bind_Done in H as (a & Ha & H)
  end.

(** ** Update and delete *)

Section UpdateDelete.
Context `{client : Client} `{order : RangeOrder}.
Variable webhookType : string.

(** X1: Update sends a PUT for the identity the data has, whatever key the
    configuration now holds.  A transport failure or an error status, 404
    included, returns an error and the data as it was; any other response
    sets the identity to the configured key and hands over to Read. *)
Theorem update_outcomes (data : ResourceData) (webhook : BaseParams) :
  unpackWebhook webhookType data = Done webhook →
  let request := updateRequest data webhook in
  let reply := Execute request in
  method request = PUT
  ∧ PathParams request = [("webhookKey", Id data)]
  ∧ ReqBody request = Some webhook
  ∧ (∀ err, Err reply = Some err →
       updateWebhook webhookType data = Done (data, DiagFromErr err))
  ∧ (Err reply = None → 399 < StatusCode (Resp reply) →
       updateWebhook webhookType data
       = Done (data, DiagErrorf "%s" [ErrorString reply]))
  ∧ (Err reply = None → StatusCode (Resp reply) = 404 →
       ∃ diags, updateWebhook webhookType data = Done (data, diags)
                ∧ is_error diags)
  ∧ (Err reply = None → StatusCode (Resp reply) ≤ 399 →
       updateWebhook webhookType data
       = readWebhook webhookType (SetId (Key webhook) data)).
Proof.
  intros Hunpack request reply. unfold updateWebhook. rewrite Hunpack. simpl.
  fold request reply. unfold IsError.
  split; [done|]. split; [done|]. split; [done|].
  split; [|split; [|split]].
  - by intros err ->.
  - intros -> Hstatus. by rewrite (proj2 (Z.ltb_lt _ _) Hstatus).
  - intros -> Hstatus. rewrite Hstatus. simpl. by eexists.
  - intros -> Hstatus. by rewrite (proj2 (Z.ltb_ge _ _) Hstatus).
Qed.

(** X2: Delete never panics and never touches the attributes.  It returns no
    error exactly when the transport succeeded with a status of 404 or
    below 400, and it changes the identity, to the empty string, exactly
    on a 404. *)
Theorem delete_outcomes (data : ResourceData) :
  let reply := Execute (deleteRequest data) in
  ∃ data' diags,
    deleteWebhook data = Done (data', diags)
    ∧ attrs data' = attrs data
    ∧ (diags = DiagNil
       ↔ Err reply = None
         ∧ (StatusCode (Resp reply) = 404 ∨ StatusCode (Resp reply) ≤ 399))
    ∧ (Err reply = None ∧ StatusCode (Resp reply) = 404 → data' = SetId "" data)
    ∧ (¬ (Err reply = None ∧ StatusCode (Resp reply) = 404) → data' = data).
Proof.
  intros reply. unfold deleteWebhook. fold reply. unfold StatusNotFound, IsError.
  destruct (Err reply) as [err|].
  { eexists _, _. split; [reflexivity|]. split; [done|].
    split; [split; [done|by intros [[=] _]]|].
    split; [by intros [[=] _]|done]. }
  case_bool_decide as H404.
  { eexists _, _. split; [reflexivity|]. split; [done|].
    split; [split; [intros _; split; [done|by left]|done]|].
    split; [done|]. intros Hnot. destruct Hnot. by split. }
  destruct (399 <? StatusCode (Resp reply)) eqn:Hstatus.
  - apply Z.ltb_lt in Hstatus.
    eexists _, _. split; [reflexivity|]. split; [done|].
    split; [split; [done|intros (_ & [?|?]); [done|lia]]|].
    split; [by intros [_ ?]|done].
  - apply Z.ltb_ge in Hstatus.
    eexists _, _. split; [reflexivity|]. split; [done|].
    split; [split; [intros _; split; [done|by right]|done]|].
    split; [by intros [_ ?]|done].
Qed.

End UpdateDelete.

(** ** Packing and unpacking the whole subscription *)

Section WebhookCodec.
Context `{domains : Domains} `{order : RangeOrder}.

Lemma unpackCriteria_result d webhookType c :
  unpackCriteria d webhookType = Done c →
  c = nil_criteria ∨ ∃ typed, c = TypedCriteria typed.
Proof.
  unfold unpackCriteria. destruct (GetOk d "criteria") as [v ok].
  destruct ok; [|intros [= <-]; by left].
  intros Hrun. invert_binds Hrun. case_bool_decide.
  - destruct (a !! 0%nat) as [block|]; [|done].
    unfold unpackCriteriaBlock in Hrun. invert_binds Hrun.
    injection Hrun as <-. right. by eexists.
  - injection Hrun as <-. by left.
Qed.

Lemma packWebhook_panics webhookType d (webhook : BaseParams) :
  ¬ packable (Criteria_ (EventFilter_ webhook)) →
  packWebhook webhookType d webhook = Panic.
Proof.
  intros Hnot. unfold packWebhook.
  destruct (setValue _ "event_types" _) as [d1 errors].
  destruct (Criteria_ (EventFilter_ webhook)) as [v|t|c]; [|done..].
  destruct v; try done.
  - destruct Hnot. by left.
  - destruct Hnot. right. by eexists.
Qed.

(** X3: [packWebhook] accepts a criteria that is nil or an object decoded from
    JSON; with anything else in the field (a string, a list, the zero value
    of a criteria struct, a struct built by unpacking) it panics, whatever
    the rest of the subscription and the data. *)
Theorem pack_webhook_needs_decoded_criteria webhookType d
    (webhook : BaseParams) :
  ¬ packable (Criteria_ (EventFilter_ webhook)) →
  packWebhook webhookType d webhook = Panic.
Proof.
  intros Hnot. unfold packWebhook.
  destruct (setValue _ "event_types" _) as [d1 errors].
  destruct (Criteria_ (EventFilter_ webhook)) as [v|t|c] eqn:Hcriteria;
    [|done..].
  destruct v as [| | | | |m]; try done; destruct Hnot.
  - by left.
  - right. by exists m.
Qed.

(** X4: Packing is not the inverse of unpacking: a subscription unpacked from a
    configuration has either no criteria or a typed criteria struct, and in
    the second case [packWebhook] panics on it for every resource data. *)
Theorem unpacked_criteria_cannot_be_packed webhookType d
    (webhook : BaseParams) :
  unpackWebhook webhookType d = Done webhook →
  Criteria_ (EventFilter_ webhook) = nil_criteria
  ∨ ((∃ typed, Criteria_ (EventFilter_ webhook) = TypedCriteria typed)
     ∧ ∀ d', packWebhook webhookType d' webhook = Panic).
Proof.
  intros Hrun. unfold unpackWebhook in Hrun. invert_binds Hrun.
  injection Hrun as <-. simpl.
  match goal with
  | H : unpackCriteria _ _ = Done _ |- _ =>
      apply unpackCriteria_result in H as [->|[typed ->]]
  end; [by left|right].
  split; [by eexists|]. intros d'. apply packWebhook_panics. simpl.
  intros [[=]|[m [=]]].
Qed.

Lemma unpackHandler_sendable (acc acc' : list Handler) (handler : value) :
  Forall sendable acc →
  unpackHandler acc handler = Done acc' →
  Forall sendable acc'.
Proof.
  intros Hacc Hrun. unfold unpackHandler in Hrun. invert_binds Hrun.
  case_bool_decide as Hurl.
  - invert_binds Hrun. injection Hrun as <-.
    apply Forall_app. split; [done|]. by repeat constructor.
  - by injection Hrun as <-.
Qed.

(** X5: Whatever the configuration, a subscription that [unpackWebhook] returns
    has the resource's domain, the configured key, and only handlers of
    type [webhook] with a non-empty url. *)
Theorem unpacked_webhook_is_sendable webhookType d (webhook : BaseParams) :
  unpackWebhook webhookType d = Done webhook →
  Domain (EventFilter_ webhook) = webhookType
  ∧ GetString d "key" = Done (Key webhook)
  ∧ BaseParams_Id webhook = Key webhook
  ∧ Forall sendable (Handlers webhook).
Proof.
  intros Hrun. unfold unpackWebhook in Hrun. invert_binds Hrun.
  injection Hrun as <-. simpl. split; [done|]. split; [done|]. split; [done|].
  match goal with
  | H : unpackHandlers _ = Done _ |- _ => rename H into Hhandlers
  end.
  unfold unpackHandlers in Hhandlers.
  destruct (GetOk d "handler") as [v ok]. destruct ok.
  - invert_binds Hhandlers.
    eapply (foldM_invariant (Forall sendable)); [|constructor|exact Hhandlers].
    intros acc x acc' Hacc Hstep'. by eapply unpackHandler_sendable.
  - injection Hhandlers as <-. constructor.
Qed.

End WebhookCodec.

Section ReadPanics.
Context `{client : Client}.

(** X6: For every domain of the enumeration the decode target of a read starts
    with the zero value of the domain's criteria struct.  If the response is
    neither a transport error, nor a 404, nor an error status, and decoding
    leaves the target as it was (a body without content), the read
    panics when it packs the criteria. *)
Theorem read_panics_on_untouched_target webhookType (data : ResourceData) :
  webhookType ∈ TypesSupported →
  let reply := Execute (readRequest webhookType data) in
  Err reply = None →
  StatusCode (Resp reply) ≠ 404 →
  StatusCode (Resp reply) ≤ 399 →
  Result reply = readTarget webhookType →
  readWebhook webhookType data = Panic.
Proof.
  intros Hdom reply Herr H404 Hstatus Hresult.
  unfold readWebhook. fold reply. rewrite Herr.
  unfold StatusNotFound, IsError.
  rewrite bool_decide_false by done.
  rewrite (proj2 (Z.ltb_ge _ _) Hstatus), Hresult.
  apply packWebhook_panics. simpl. unfold criteriaTarget.
  destruct (lookup_inside _ _ domainCriteriaLookup_dom Hdom) as [t ->].
  intros [[=]|[m [=]]].
Qed.

End ReadPanics.

(** ** Diff validators, further *)

Lemma foldM_panics {A S} (body : S → A → exec S) (acc : S) (xs : list A) x :
  x ∈ xs → (∀ acc, body acc x = Panic) → foldM body acc xs = Panic.
Proof.
  intros Hin Hx. revert acc.
  induction xs as [|y xs IH]; intros acc; [by apply elem_of_nil in Hin|].
  simpl. apply elem_of_cons in Hin as [<-|Hin]; [by rewrite Hx|].
  destruct (body acc y) as [acc'|]; simpl; [by apply IH|done].
Qed.

Lemma checkEventTypes_first_offender webhookType allowed
    (before : list string) (t : string) (rest : list value) :
  (∀ s, s ∈ before → s ∈ allowed) →
  t ∉ allowed →
  checkEventTypes webhookType allowed
    ((VString <$> before) ++ VString t :: rest)
  = Done (Some (unsupportedEventType webhookType t)).
Proof.
  intros Hbefore Ht. induction before as [|s before IH]; simpl.
  - by rewrite bool_decide_false.
  - rewrite bool_decide_true by (apply Hbefore; by left). simpl.
    apply IH. intros s' Hs'. apply Hbefore. by right.
Qed.

(** X7: The event-type check stops at the first requested type the domain does
    not allow and reports that one; what follows it in the set is not
    looked at, not even its dynamic type.  For a key outside the table the
    allowed list is empty, so the first requested type is reported. *)
Theorem event_types_first_offender webhookType diff
    (before : list string) (t : string) (rest : list value) :
  Get diff "event_types" = VSet ((VString <$> before) ++ VString t :: rest) →
  (∀ s, s ∈ before → s ∈ allowedEventTypes webhookType) →
  t ∉ allowedEventTypes webhookType →
  eventTypesDiff webhookType diff
  = Done (Some ("event_type " +:+ t +:+ " not supported for domain "
                +:+ webhookType)).
Proof.
  intros Hget Hbefore Ht. unfold eventTypesDiff. rewrite Hget. simpl.
  rewrite bool_decide_false.
  - by apply checkEventTypes_first_offender.
  - rewrite length_app. simpl. lia.
Qed.

Section CriteriaDiff.
Context `{domains : Domains}.

(** X8: With a non-empty [criteria] set, [criteriaDiff] runs the validation of
    the domain on the first block only and returns its verdict; the other
    blocks are not validated.  With no block, or the attribute unset, it
    returns no error without consulting the table, for any domain key. *)
Theorem criteria_diff_validates_first_block webhookType diff :
  (∀ (block : gmap string value) (others : list value) validate,
     attrs diff !! "criteria" = Some (VSet (VMap block :: others)) →
     domainCriteriaValidationLookup !! webhookType = Some validate →
     criteriaDiff webhookType diff = validate block)
  ∧ (attrs diff !! "criteria" = None
     ∨ attrs diff !! "criteria" = Some (VSet []) →
     criteriaDiff webhookType diff = Done None).
Proof.
  unfold criteriaDiff, GetOk, call. split.
  - intros block others validate -> ->. simpl. by destruct (validate block).
  - by intros [->| ->].
Qed.

(** X9: For the domains [user], [release_bundle_v2_promotion] and
    [artifact_lifecycle] the registered validation accepts everything:
    [criteriaDiff] returns no error for every set of criteria blocks. *)
Theorem criteria_diff_unvalidated_domains webhookType diff
    (blocks : list (gmap string value)) :
  webhookType ∈ unvalidatedDomains →
  attrs diff !! "criteria" = Some (VSet (VMap <$> blocks)) →
  criteriaDiff webhookType diff = Done None.
Proof.
  intros Hdom Hattr. unfold criteriaDiff, GetOk, call. rewrite Hattr. simpl.
  rewrite length_fmap. destruct blocks as [|block blocks]; [done|]. simpl.
  unfold unvalidatedDomains in Hdom. rewrite !elem_of_cons, elem_of_nil in Hdom.
  destruct Hdom as [->|[->|[->|[]]]]; reflexivity.
Qed.

End CriteriaDiff.

(** ** Key/value pairs, further *)

(** X10: [packKeyValuePair] keeps, for each name, the value of the last pair
    with that name in the slice; names that do not occur are absent, so a
    nil or empty slice gives the empty map. *)
Theorem pack_key_value_last_wins (kvs : list KeyValuePair) (name : string) :
  packKeyValuePair (Some kvs) !! name
  = VString ∘ Value <$> last (filter (λ kv, Name kv = name) kvs)
  ∧ packKeyValuePair None = ∅.
Proof.
  split; [|done]. induction kvs as [|kv kvs IH] using rev_ind; [done|].
  change (Some (kvs ++ [kv])) with (append (Some kvs) kv).
  rewrite packKeyValuePair_append, filter_app.
  destruct (decide (Name kv = name)) as [<-|Hne].
  - rewrite lookup_insert_eq, filter_cons_True by done.
    by rewrite filter_nil, last_snoc.
  - rewrite lookup_insert_ne, filter_cons_False by done.
    by rewrite filter_nil, app_nil_r.
Qed.

Section UnpackKeyValuePair.
Context `{order : RangeOrder}.

Lemma unpack_loop_strings (entries : list (string * value)) acc kvs :
  foldM (λ kvPairs '(key, val),
           v ← as_string val;
           mret (append kvPairs {| Name := key; Value := v |}))
        acc entries = Done kvs →
  Forall is_string_entry entries.
Proof.
  revert acc. induction entries as [|[k v] entries IH]; intros acc Hrun.
  - constructor.
  - simpl in Hrun. apply bind_Done in Hrun as (acc' & Hstep & Hrun).
    constructor; [|by eapply IH].
    destruct v; try done. by eexists.
Qed.

Lemma unpack_loop_panic (entries : list (string * value)) acc :
  foldM (λ kvPairs '(key, val),
           v ← as_string val;
           mret (append kvPairs {| Name := key; Value := v |}))
        acc entries = Panic →
  ∃ k v, (k, v) ∈ entries ∧ ¬ is_string_value v.
Proof.
  revert acc. induction entries as [|[k v] entries IH]; intros acc Hrun.
  - done.
  - simpl in Hrun. destruct v;
      try (exists k; eexists; split; [by left|]; by intros [s [=]]).
    simpl in Hrun. destruct (IH _ Hrun) as (k' & v' & Hin & Hv).
    exists k', v'. split; [by right|done].
Qed.

Lemma unpackKeyValuePair_done (m : gmap string value) kvs :
  unpackKeyValuePair m = Done kvs →
  elems kvs ≡ₚ entry_pair <$> map_to_list m
  ∧ length (elems kvs) = size m
  ∧ (kvs = None ↔ m = ∅).
Proof.
  intros Hrun.
  assert (elems kvs = entry_pair <$> range m) as He.
  { pose proof Hrun as Hstr. apply unpack_loop_strings in Hstr.
    destruct (unpack_loop_pack (range m) None Hstr) as (kvs' & Hrun' & _ & He).
    unfold unpackKeyValuePair in Hrun. rewrite Hrun in Hrun'.
    by injection Hrun' as <-. }
  split; [by rewrite He, (range_perm m)|]. split.
  - by rewrite He, length_fmap, (range_perm m), length_map_to_list.
  - split.
    + intros ->. simpl in He. symmetry in He. apply fmap_nil_inv in He.
      apply map_to_list_empty_iff. apply Permutation_nil_r.
      by rewrite <- (range_perm m), He.
    + intros ->. unfold unpackKeyValuePair in Hrun.
      pose proof (range_perm ∅) as Hperm. rewrite map_to_list_empty in Hperm.
      apply Permutation_nil_r in Hperm. rewrite Hperm in Hrun.
      by injection Hrun as <-.
Qed.

(** X11: [unpackKeyValuePair] panics exactly when some value of the map is not a
    string, in whatever order the map is walked.  When it returns, the
    slice has one pair per entry of the map, with the entry's key and
    value, and it is nil exactly when the map is empty. *)
Theorem unpack_key_value_outcomes (m : gmap string value) :
  (unpackKeyValuePair m = Panic
   ↔ ∃ k v, m !! k = Some v ∧ ¬ is_string_value v)
  ∧ (∀ kvs, unpackKeyValuePair m = Done kvs →
       elems kvs ≡ₚ entry_pair <$> map_to_list m
       ∧ length (elems kvs) = size m
       ∧ (kvs = None ↔ m = ∅)).
Proof.
  split; [split|].
  - intros Hpanic. unfold unpackKeyValuePair in Hpanic.
    apply unpack_loop_panic in Hpanic as (k & v & Hin & Hv).
    rewrite (range_perm m) in Hin. apply elem_of_map_to_list in Hin.
    by exists k, v.
  - intros (k & v & Hkv & Hv). unfold unpackKeyValuePair.
    apply foldM_panics with (x := (k, v)).
    + rewrite (range_perm m). by apply elem_of_map_to_list.
    + intros acc. destruct v; try done. destruct Hv. by eexists.
  - apply unpackKeyValuePair_done.
Qed.

End UnpackKeyValuePair.

(** ** State upgrade, further *)

(** X12: The upgrade is not idempotent: run on a state it has already upgraded,
    it finds no flat field and replaces the handler list by one handler
    whose four fields are nil; the other fields stay. *)
Theorem upgrade_twice_resets_handler (rawState : gmap string value) :
  (ResourceStateUpgradeV1 (ResourceStateUpgradeV1 rawState).1).1
  = <["handler" := upgradedHandler ∅]> (ResourceStateUpgradeV1 rawState).1.
Proof.
  apply map_eq; intros k. rewrite upgrade_lookup, lookup_insert.
  assert (∀ key, key ∈ flatFields →
            index (ResourceStateUpgradeV1 rawState).1 key = VNil) as Hnil.
  { intros key Hkey. unfold index. rewrite upgrade_lookup.
    by rewrite decide_True. }
  destruct (decide (k ∈ flatFields)) as [Hflat|Hflat].
  - rewrite decide_False by (intros <-; by apply handler_not_flat).
    rewrite upgrade_lookup. by rewrite decide_True.
  - destruct (decide (k = "handler")) as [->|Hk].
    + rewrite decide_True by done. f_equal. unfold upgradedHandler.
      unfold flatFields in Hnil.
      rewrite !Hnil by (rewrite !elem_of_cons; tauto). done.
    + by rewrite decide_False by done.
Qed.

(** ** Handler codec, further *)

Lemma local_secret_no_match url (locals : list HandlerBlock) secret :
  (∀ b, b ∈ locals → block_url b ≠ url) →
  local_secret url locals secret = secret.
Proof.
  intros Hnone.
  destruct (local_secret_cases url locals secret)
    as [[Heq _]|(b & Hin & Hurl & _)]; [done|].
  by destruct (Hnone b Hin).
Qed.

(** X13: When several handlers of the local state have the url, [packSecret]
    returns the secret of the last of them in the order of the set's
    listing. *)
Theorem pack_secret_last_match d url (before after : list HandlerBlock)
    (b : HandlerBlock) :
  attrs d !! "handler"
  = Some (VSet (block_value <$> (before ++ b :: after))) →
  Forall has_secret (before ++ b :: after) →
  block_url b = url →
  (∀ b', b' ∈ after → block_url b' ≠ url) →
  packSecret d url = Done (default "" (block_secret b)).
Proof.
  intros Hattr Hall Hurl Hafter.
  rewrite (packSecret_locals _ _ _ Hattr Hall). f_equal.
  unfold local_secret. rewrite foldl_app. simpl.
  rewrite bool_decide_true by done.
  by apply local_secret_no_match.
Qed.

(** X14: Secrets never come from the remote system: the [Secret] field of the
    handler being packed has no influence on the packed block, and when the
    local state has no handler set every packed secret is the empty
    string. *)
Theorem pack_handler_ignores_remote_secret d (remote : Handler)
    (secret : string) :
  packHandler d (with_secret secret remote) = packHandler d remote
  ∧ (attrs d !! "handler" = None ∨ attrs d !! "handler" = Some (VSet []) →
     ∃ m, packHandler d remote = Done m
          ∧ m !! "secret" = Some (VString "")).
Proof.
  split; [done|]. unfold packHandler, packSecret, GetOk.
  intros [->| ->]; simpl;
    (eexists; split; [reflexivity|]);
    by destruct (CustomHttpHeaders remote).
Qed.

Section HandlerRoundTrip.
Context `{order : RangeOrder}.

Lemma unpackKeyValuePair_nil_iff (m : gmap string value) kvs :
  unpackKeyValuePair m = Done kvs → (kvs = None ↔ m = ∅).
Proof.
  intros Hrun. apply unpackKeyValuePair_done in Hrun.
  by destruct Hrun as (_ & _ & Hnil).
Qed.

Lemma unpackHandler_headers (b : HandlerBlock) (h : Handler) :
  unpackHandler [] (block_value b) = Done [h] →
  (λ kvs, VMap (packKeyValuePair (Some kvs))) <$> CustomHttpHeaders h
  = round_trip_headers b.
Proof.
  unfold unpackHandler, block_value, round_trip_headers. simpl.
  rewrite block_map_url. simpl. case_bool_decide; [|done].
  rewrite block_map_secret, block_map_use_secret, block_map_proxy,
    block_map_headers.
  intros Hrun. invert_binds Hrun. injection Hrun as <-. simpl.
  destruct (block_custom_http_headers b) as [headers|]; simpl in *.
  - match goal with
    | H : Go.bind _ _ = Done _ |- _ => rename H into Hheaders
    | H : mbind _ _ = Done _ |- _ => rename H into Hheaders
    | H : unpackKeyValuePair _ = Done _ |- _ => rename H into Hheaders
    end.
    pose proof (unpackKeyValuePair_nil_iff _ _ Hheaders) as Hnil.
    destruct (unpackKeyValuePair_headers headers) as (kvs & Hrun' & Hpack & _).
    rewrite Hheaders in Hrun'. injection Hrun' as ->.
    destruct kvs as [kvs|]; simpl.
    + rewrite decide_False; [by rewrite Hpack|].
      intros ->. rewrite fmap_empty in Hnil. discriminate (proj2 Hnil eq_refl).
    + rewrite decide_True; [done|].
      apply (fmap_empty_inv VString). by apply Hnil.
  - match goal with
    | H : Done _ = Done _ |- _ => by injection H as <-
    | H : mret _ = Done _ |- _ => by injection H as <-
    end.
Qed.

(** X15: Round trip of a handler of the local state whose url is not empty and
    is shared only with handlers of the same secret: unpacked and then
    packed against that state it comes back with its url, its secret, its
    signing flag and proxy (the zero value for a missing key) and its
    custom headers, except that an empty header map does not come back. *)
Theorem handler_round_trip d (locals : list HandlerBlock) (b : HandlerBlock) :
  attrs d !! "handler" = Some (VSet (block_value <$> locals)) →
  Forall has_secret locals →
  b ∈ locals →
  block_url b ≠ "" →
  (∀ b', b' ∈ locals → block_url b' = block_url b →
         block_secret b' = block_secret b) →
  ∃ h m,
    unpackHandler [] (block_value b) = Done [h]
    ∧ packHandler d h = Done m
    ∧ m !! "url" = Some (VString (block_url b))
    ∧ m !! "secret" = VString <$> block_secret b
    ∧ m !! "use_secret_for_signing"
      = Some (VBool (default false (block_use_secret_for_signing b)))
    ∧ m !! "proxy" = Some (VString (default "" (block_proxy b)))
    ∧ m !! "custom_http_headers" = round_trip_headers b.
Proof.
  intros Hattr Hall Hin Hurl Hsame.
  destruct (unpackHandler_block [] b) as (r & Hrun & _ & Hkeep).
  destruct (Hkeep Hurl) as (h & -> & Hh). simpl in Hrun.
  destruct (packHandler_locals d locals h Hattr Hall)
    as (m & Hpack & m' & [= <-] & _ & Hmurl & Hmflag & Hmproxy & Hmheaders
        & secret & Hmsecret & _ & Hagree).
  destruct Hh as (_ & Hhurl & _ & Hhflag & Hhproxy & _).
  exists h, m. split; [done|]. split; [done|].
  rewrite Hmurl, Hmflag, Hmproxy, Hmheaders, Hmsecret, Hhurl, Hhflag, Hhproxy.
  split; [done|]. split; [|split; [done|split; [done|]]].
  - rewrite <- (Hagree b Hin) by (by rewrite ?Hhurl). done.
  - by apply unpackHandler_headers.
Qed.

End HandlerRoundTrip.

(** ** Registry and criteria codec, further *)

Lemma bind_Panic {A B} (c : exec A) (k : A → exec B) :
  (∀ a, k a = Panic) → Go.bind c k = Panic.
Proof. intros Hk. destruct c; simpl; [apply Hk|done]. Qed.

Section RegistryFacts.
Context `{domains : Domains}.

(** X16: The tables agree with each other: a domain whose decode target is the
    zero value of a criteria struct type is registered with the unpack,
    pack and validation functions of that type (the validation of the
    promotion criteria being the one that accepts everything). *)
Theorem registry_tables_agree webhookType (t : CriteriaType) :
  domainCriteriaLookup !! webhookType = Some t →
  domainUnpackLookup !! webhookType = Some (unpackerOf t)
  ∧ domainPackLookup !! webhookType = Some (packerOf t)
  ∧ domainCriteriaValidationLookup !! webhookType = Some (validationOf t).
Proof.
  intros Ht.
  assert (webhookType ∈ (list_to_set TypesSupported : gset string))
    as Hdom%elem_of_list_to_set.
  { rewrite <- domainCriteriaLookup_dom. apply elem_of_dom. by eexists. }
  unfold TypesSupported in Hdom. rewrite !elem_of_cons, elem_of_nil in Hdom.
  repeat (destruct Hdom as [->|Hdom];
          [vm_compute in Ht; injection Ht as <-; by repeat split|]).
  done.
Qed.

(** X17: In a domain outside the enumeration a configuration with exactly one
    criteria block cannot be unpacked, whatever the block holds: unpacking
    panics, and so do create and update, before any request is built. *)
Theorem unknown_domain_criteria_panics `{client : !Client}
    `{order : RangeOrder} webhookType d (block : value) :
  webhookType ∉ TypesSupported →
  attrs d !! "criteria" = Some (VSet [block]) →
  unpackCriteria d webhookType = Panic
  ∧ unpackWebhook webhookType d = Panic
  ∧ createWebhook webhookType d = Panic
  ∧ updateWebhook webhookType d = Panic.
Proof.
  intros Hout Hattr.
  assert (unpackCriteria d webhookType = Panic) as Hcriteria.
  { unfold unpackCriteria, GetOk. rewrite Hattr. simpl.
    unfold unpackCriteriaBlock, call.
    rewrite (lookup_outside _ _ domainUnpackLookup_dom Hout).
    repeat (first [reflexivity | apply bind_Panic; intros ?]). }
  assert (unpackWebhook webhookType d = Panic) as Hwebhook.
  { unfold unpackWebhook. rewrite Hcriteria.
    repeat (first [reflexivity | apply bind_Panic; intros ?]). }
  unfold createWebhook, updateWebhook. by rewrite Hwebhook.
Qed.

Lemma NewStringSet_strings (patterns : list string) :
  NewStringSet (VString <$> patterns) = Done (VSet (VString <$> patterns)).
Proof. unfold NewStringSet. by rewrite CastToStringArr_strings. Qed.

Lemma patternsOf_json (criteria : gmap string value) key patterns :
  json_patterns (criteria !! key) patterns →
  patternsOf criteria key = Done (VString <$> patterns).
Proof.
  unfold patternsOf. by intros [[-> ->]|[[-> ->]| ->]].
Qed.

(** X18: Packing a decoded criteria object in a domain with pack function
    [pack]: the domain's packed fields are kept, and [include_patterns] and
    [exclude_patterns] are set, over whatever the domain function put
    there, to the sets of the object's [includePatterns] and
    [excludePatterns], a missing or null field giving the empty set.  The
    result is stored under [criteria] as a one-block set. *)
Theorem pack_criteria_patterns webhookType d (criteria packed : gmap string value)
    (resource : Resource) pack (includes excludes : list string) :
  blockResource webhookType "criteria" = Done resource →
  domainPackLookup !! webhookType = Some pack →
  pack criteria = Done packed →
  json_patterns (criteria !! "includePatterns") includes →
  json_patterns (criteria !! "excludePatterns") excludes →
  packCriteria d webhookType criteria
  = Done (setValue (MkLens d) "criteria"
            (VSet [VMap (<["exclude_patterns" := VSet (VString <$> excludes)]>
                          (<["include_patterns" := VSet (VString <$> includes)]>
                             packed))])).
Proof.
  intros Hres Hpack Hpacked Hinc Hexc. unfold packCriteria, call.
  rewrite Hres, Hpack. simpl. rewrite Hpacked. simpl.
  rewrite (patternsOf_json _ _ _ Hinc). simpl.
  rewrite NewStringSet_strings. simpl.
  rewrite (patternsOf_json _ _ _ Hexc). simpl.
  by rewrite NewStringSet_strings.
Qed.

Lemma setValue_no_errors (lens : Lens) key v :
  set_never_fails → (setValue lens key v).2 = lens.2.
Proof.
  intros Hset. destruct lens as [d errors]. unfold setValue.
  specialize (Hset d key v). by destruct (Set_ d key v) as [d' [err|]].
Qed.

(** X19: when [packWebhook] returns, its diagnostics are either empty or
    the single error [failed to pack webhook] listing at least one
    collected error; on a host that never rejects a [Set] they are always
    empty. *)
Theorem pack_webhook_diagnostics webhookType d (webhook : BaseParams) d' diags :
  packWebhook webhookType d webhook = Done (d', diags) →
  (diags = DiagNil
   ∨ ∃ errors, errors ≠ []
               ∧ diags = DiagErrorf "failed to pack webhook %q" errors)
  ∧ (set_never_fails → diags = DiagNil).
Proof.
  unfold packWebhook.
  destruct (setValue _ "event_types" _) as [d1 errors1] eqn:Hfour.
  intros Hrun. apply bind_Done in Hrun as ([d2 errors2] & Hcriteria & Hrun).
  apply bind_Done in Hrun as ([d3 errors3] & Hhandlers & Hrun).
  split.
  - case_bool_decide as Hlen; injection Hrun as <- <-; [right|by left].
    eexists. split; [|done]. intros Hnil. rewrite Hnil in Hlen. simpl in Hlen. lia.
  - intros Hset.
    assert (errors1 = []) as ->.
    { change errors1 with (d1, errors1).2. rewrite <- Hfour.
      by rewrite !setValue_no_errors. }
    assert (errors2 = []) as ->.
    { destruct (is_nil _).
      - by injection Hcriteria as <- <-.
      - apply bind_Done in Hcriteria as (m & _ & Hcriteria).
        apply bind_Done in Hcriteria as ([d4 errors4] & Hpack & Hcriteria).
        injection Hcriteria as <- <-. simpl.
        unfold packCriteria in Hpack. invert_binds Hpack.
        injection Hpack as Hpack.
        change errors4 with (d4, errors4).2. rewrite <- Hpack.
        by apply (setValue_no_errors (MkLens d1)). }
    assert (errors3 = []) as ->.
    { unfold packHandlers in Hhandlers. invert_binds Hhandlers.
      injection Hhandlers as Hhandlers.
      change errors3 with (d3, errors3).2. rewrite <- Hhandlers.
      by apply (setValue_no_errors (MkLens d2)). }
    simpl in Hrun. by injection Hrun as <- <-.
Qed.

End RegistryFacts.

(** ** The retry condition, further *)

Lemma append_assoc (a b c : string) : (a +:+ b) +:+ c = a +:+ (b +:+ c).
Proof.
  induction a as [|x a IH]; [done|].
  rewrite !RegexpFacts.append_String. by rewrite IH.
Qed.

(** X20: The retry condition looks at the body only and is not anchored: if it
    holds for a body, it holds for that body with any text before and after
    it, whatever the status and the transport error. *)
Theorem retry_match_is_unanchored (body before after : string)
    (status status' : Z) (err err' : option error) :
  retryOnProxyError {| StatusCode := status; Body := body |} err = true →
  retryOnProxyError
    {| StatusCode := status'; Body := before +:+ body +:+ after |} err'
  = true.
Proof.
  rewrite !retryOnProxyError_matches. simpl.
  intros (pre & key & post & -> & Hkey).
  exists (before +:+ pre), key, (post +:+ after). split; [|done].
  by rewrite !append_assoc.
Qed.

Section DomainDispatch.
Context `{client : Client}.

(** X21: In a domain of the enumeration, a configuration with one criteria block
    whose pattern sets hold strings is unpacked by the unpack function of
    the criteria struct type that is also the domain's decode target: the
    function gets the raw block and the include and exclude patterns in the
    order of the sets' listings, and its result is returned as the typed
    criteria; unpacking panics only if that function does. *)
Theorem unpack_criteria_dispatch webhookType d (id : gmap string value)
    (includes excludes : list string) :
  webhookType ∈ TypesSupported →
  attrs d !! "criteria" = Some (VSet [VMap id]) →
  id !! "include_patterns" = Some (VSet (VString <$> includes)) →
  id !! "exclude_patterns" = Some (VSet (VString <$> excludes)) →
  ∃ t,
    domainCriteriaLookup !! webhookType = Some t
    ∧ unpackCriteria d webhookType
      = Go.bind (unpackerOf t id {| IncludePatterns := includes;
                                    ExcludePatterns := excludes |})
                (λ c, Done (TypedCriteria c)).
Proof.
  intros Hdom Hattr Hinc Hexc.
  destruct (lookup_inside _ _ domainCriteriaLookup_dom Hdom) as [t Ht].
  exists t. split; [done|].
  assert (domainUnpackLookup !! webhookType = Some (unpackerOf t)) as Hf.
  { unfold TypesSupported in Hdom.
    rewrite !elem_of_cons, elem_of_nil in Hdom.
    repeat (destruct Hdom as [->|Hdom];
            [vm_compute in Ht; by injection Ht as <-|]).
    done. }
  unfold unpackCriteria, GetOk. rewrite Hattr. simpl.
  by apply unpackCriteriaBlock_typed.
Qed.

Lemma packWebhook_unknown_domain webhookType d (webhook : BaseParams) :
  webhookType ∉ TypesSupported →
  packWebhook webhookType d webhook = Panic.
Proof.
  intros Hout. unfold packWebhook.
  destruct (setValue _ "event_types" _) as [d1 errors1].
  assert (∀ block, blockResource webhookType block = Panic) as Hres.
  { intros block. unfold blockResource.
    by rewrite (lookup_outside _ _ (domainSchemaLookup_dom _ _ _) Hout). }
  destruct (is_nil _).
  - simpl. unfold packHandlers. by rewrite Hres.
  - apply bind_Panic. intros [d2 errors2]. unfold packHandlers.
    by rewrite Hres.
Qed.

(** X22: In a domain outside the enumeration nothing can be packed: the schema
    of the domain is missing, so [packWebhook] panics for every
    subscription, and a read panics whenever the response is neither a
    transport error, nor a 404, nor an error status. *)
Theorem unknown_domain_read_panics webhookType (data : ResourceData) :
  webhookType ∉ TypesSupported →
  let reply := Execute (readRequest webhookType data) in
  (∀ d webhook, packWebhook webhookType d webhook = Panic)
  ∧ (Err reply = None → StatusCode (Resp reply) ≠ 404 →
     StatusCode (Resp reply) ≤ 399 →
     readWebhook webhookType data = Panic).
Proof.
  intros Hout reply. split.
  - intros d webhook. by apply packWebhook_unknown_domain.
  - intros Herr H404 Hstatus. unfold readWebhook. fold reply. rewrite Herr.
    unfold StatusNotFound, IsError. rewrite bool_decide_false by done.
    rewrite (proj2 (Z.ltb_ge _ _) Hstatus).
    by apply packWebhook_unknown_domain.
Qed.

End DomainDispatch.

(** ** Scenarios with the sample collaborators *)

Section Scenarios.
#[local] Existing Instance sample_host.
#[local] Existing Instance sample_domains.

Lemma C3_pack_handlers_secret_witness :
  ∃ packed,
    packHandlers "docker" local_state remote_handlers
    = Done (setValue (MkLens local_state) "handler" (VSet packed))
    ∧ Forall2 (packed_from two_blocks) remote_handlers packed.
Proof.
  apply (C3_pack_handlers_secret
           "docker" local_state two_blocks remote_handlers
           (() : @Resource sample_host)).
  - reflexivity.
  - unfold two_blocks, has_secret. repeat constructor; by eexists.
  - reflexivity.
Defined.

(** Handler round trip: the secret of the known url comes back from the
    local state, the unknown url gets the empty secret. *)
Example pack_known_and_unknown_url :
  packedHandlers local_state remote_handlers
  = Done [
      VMap (list_to_map [("url", VString "https://h/"); ("secret", VString "s");
                         ("use_secret_for_signing", VBool true);
                         ("proxy", VString "p")]);
      VMap (list_to_map [("url", VString "https://new/"); ("secret", VString "");
                         ("use_secret_for_signing", VBool false);
                         ("proxy", VString "");
                         ("custom_http_headers", VMap ∅)])
    ].
Proof. vm_compute. reflexivity. Qed.

Example unpack_docker_config :
  unpackWebhook "docker" docker_config = Done docker_webhook.
Proof. reflexivity. Qed.

Lemma C1_unpack_criteria_single_block_witness :
  unpackCriteria one_criteria_data "docker"
  = Done (TypedCriteria
            (RepoWebhookCriteria,
             {| IncludePatterns := ["a/**"]; ExcludePatterns := ["tmp/**"] |})).
Proof.
  destruct (C1_unpack_criteria_single_block "docker" one_criteria_data
              [criteria_block ["a/**"] ["tmp/**"]]) as [Hone _].
  - left. reflexivity.
  - rewrite (Hone _ eq_refl). reflexivity.
Defined.

(** A set of two criteria blocks: the first block alone unpacks to a
    repository criteria, but [unpackCriteria] returns nil. *)
Lemma C1_two_blocks_counterexample :
  attrs two_criteria_data !! "criteria"
  = Some (VSet [criteria_block ["a/**"] ["tmp/**"]; criteria_block ["b/**"] []])
  ∧ unpackCriteriaBlock "docker" (criteria_block ["a/**"] ["tmp/**"])
    = Done (TypedCriteria
              (RepoWebhookCriteria,
               {| IncludePatterns := ["a/**"];
                  ExcludePatterns := ["tmp/**"] |}))
  ∧ unpackCriteria two_criteria_data "docker" = Done nil_criteria
  ∧ unpackCriteria two_criteria_data "docker"
    ≠ unpackCriteriaBlock "docker" (criteria_block ["a/**"] ["tmp/**"]).
Proof. repeat split; try reflexivity. intros [=]. Qed.

Lemma not_a_domain : "npm" ∉ TypesSupported.
Proof.
  unfold TypesSupported. rewrite !not_elem_of_cons.
  by repeat split; [..|apply not_elem_of_nil].
Qed.

Lemma C6_registry_domains_witness :
  (∀ block, blockResource "npm" block = Panic)
  ∧ criteriaTarget "npm" = nil_criteria.
Proof.
  destruct (C6_registry_domains "npm" not_a_domain)
    as (_ & _ & _ & _ & Hschema & Hzero & _).
  by split.
Defined.

(** The domain [npm] is not in the enumeration, yet: a read that meets a
    404 completes, having looked up the nil criteria target; unpacking a
    configuration without criteria completes; and the event-type check
    returns an ordinary validation error computed from an empty list of
    allowed types. None of them is a panic. *)
Lemma C6_unknown_domain_counterexample :
  ("npm" ∉ TypesSupported)
  ∧ domainCriteriaLookup !! "npm" = None
  ∧ ResultTarget (readRequest "npm" docker_config)
    = Some {| Key := ""; Description := ""; Enabled := false;
              EventFilter_ := {| Domain := ""; EventTypes := [];
                                 Criteria_ := nil_criteria |};
              Handlers := [] |}
  ∧ readWebhook (client := sample_client 404 "") "npm" docker_config
    = Done (SetId "" docker_config, DiagNil)
  ∧ unpackWebhook "npm" docker_config
    = Done {| Key := "wh1"; Description := ""; Enabled := true;
              EventFilter_ := {| Domain := "npm"; EventTypes := ["pushed"];
                                 Criteria_ := nil_criteria |};
              Handlers := Handlers docker_webhook |}
  ∧ eventTypesDiff "npm" docker_config
    = Done (Some "event_type pushed not supported for domain npm")
  ∧ readWebhook (client := sample_client 404 "") "npm" docker_config ≠ Panic.
Proof.
  split; [exact not_a_domain|]. split; [reflexivity|]. split; [reflexivity|].
  split; [reflexivity|]. split; [reflexivity|]. split; [reflexivity|].
  intros [=].
Qed.

Lemma C7_create_sets_identity_after_success_witness :
  createWebhook (client := sample_client 201 "") "docker" docker_config
  = readWebhook (client := sample_client 201 "") "docker"
      (SetId "wh1" docker_config)
  ∧ createWebhook (client := sample_client 409 "key exists") "docker"
      docker_config
    = Done (docker_config, DiagErrorf "%s" ["key exists"])
  ∧ createWebhook (client := broken_client "connection refused") "docker"
      docker_config
    = Done (docker_config, DiagFromErr "connection refused").
Proof.
  split; [|split].
  - destruct (C7_create_sets_identity_after_success
                (client := sample_client 201 "") "docker"
                docker_config docker_webhook unpack_docker_config)
      as (_ & _ & Hok & _).
    by destruct Hok as [-> _].
  - destruct (C7_create_sets_identity_after_success
                (client := sample_client 409 "key exists") "docker"
                docker_config docker_webhook unpack_docker_config)
      as (_ & Hstatus & _).
    by apply Hstatus.
  - destruct (C7_create_sets_identity_after_success
                (client := broken_client "connection refused") "docker"
                docker_config docker_webhook unpack_docker_config)
      as (Herr & _).
    by apply Herr.
Defined.

(** Create against a server that echoes the subscription: the request
    carries the domain and event types, and the data ends with the key as
    its identity and no error. *)
Example create_docker_webhook :
  ReqBody (createRequest docker_webhook) = Some docker_webhook
  ∧ Domain (EventFilter_ docker_webhook) = "docker"
  ∧ EventTypes (EventFilter_ docker_webhook) = ["pushed"]
  ∧ ∃ data,
      createWebhook (client := serving_client docker_webhook) "docker"
        docker_config = Done (data, DiagNil)
      ∧ Id data = "wh1".
Proof.
  split; [reflexivity|]. split; [reflexivity|]. split; [reflexivity|].
  eexists. split; reflexivity.
Qed.

Lemma C8_not_found_clears_identity_witness :
  readWebhook (client := sample_client 404 "") "docker" local_state
  = Done (SetId "" local_state, DiagNil)
  ∧ deleteWebhook (client := sample_client 404 "") local_state
    = Done (SetId "" local_state, DiagNil)
  ∧ deleteWebhook (client := sample_client 500 "boom") local_state
    = Done (local_state, DiagErrorf "%s" ["boom"]).
Proof.
  split; [|split].
  - by apply (C8_not_found_clears_identity
                (client := sample_client 404 "") "docker" local_state).
  - by apply (C8_not_found_clears_identity
                (client := sample_client 404 "") "docker" local_state).
  - by apply (C8_not_found_clears_identity
                (client := sample_client 500 "boom") "docker" local_state).
Defined.

Example unpack_docker_state :
  unpackWebhook "docker" docker_state = Done docker_webhook.
Proof. reflexivity. Qed.

Lemma update_outcomes_witness :
  updateWebhook (client := sample_client 404 "gone") "docker" docker_state
  = Done (docker_state, DiagErrorf "%s" ["gone"])
  ∧ PathParams (updateRequest docker_state docker_webhook)
    = [("webhookKey", "wh0")].
Proof.
  destruct (update_outcomes (client := sample_client 404 "gone") "docker"
              docker_state docker_webhook unpack_docker_state)
    as (_ & Hpath & _ & _ & Hstatus & _).
  split; [|exact Hpath]. by apply Hstatus.
Defined.

Lemma pack_webhook_needs_decoded_criteria_witness :
  packWebhook "docker" docker_config (readTarget "docker") = Panic.
Proof.
  apply pack_webhook_needs_decoded_criteria.
  intros [[=]|[m [=]]].
Defined.

Example unpack_one_criteria :
  unpackWebhook "docker" one_criteria_data = Done one_criteria_webhook.
Proof. reflexivity. Qed.

Lemma unpacked_criteria_cannot_be_packed_witness :
  packWebhook "docker" one_criteria_data one_criteria_webhook = Panic.
Proof.
  destruct (unpacked_criteria_cannot_be_packed "docker" one_criteria_data
              one_criteria_webhook unpack_one_criteria)
    as [[=]|[_ Hpanic]].
  apply Hpanic.
Defined.

Lemma unpacked_webhook_is_sendable_witness :
  Domain (EventFilter_ docker_webhook) = "docker"
  ∧ Forall sendable (Handlers docker_webhook).
Proof.
  destruct (unpacked_webhook_is_sendable "docker" docker_config
              docker_webhook unpack_docker_config)
    as (Hdomain & _ & _ & Hhandlers).
  by split.
Defined.

Lemma docker_is_a_domain : "docker" ∈ TypesSupported.
Proof. unfold TypesSupported. rewrite !elem_of_cons. tauto. Qed.

Lemma read_panics_on_untouched_target_witness :
  readWebhook (client := sample_client 200 "") "docker" docker_state = Panic.
Proof.
  by apply (read_panics_on_untouched_target (client := sample_client 200 "")
              "docker" docker_state docker_is_a_domain).
Defined.

Lemma event_types_first_offender_witness :
  eventTypesDiff "docker" mixed_event_types
  = Done (Some "event_type cached not supported for domain docker").
Proof.
  apply (event_types_first_offender "docker" mixed_event_types
           ["pushed"] "cached" [VBool true]).
  - reflexivity.
  - intros s ->%list_elem_of_singleton.
    change (allowedEventTypes "docker") with ["pushed"; "deleted"; "promoted"].
    rewrite !elem_of_cons. tauto.
  - change (allowedEventTypes "docker") with ["pushed"; "deleted"; "promoted"].
    rewrite !not_elem_of_cons.
    by repeat split; [..|apply not_elem_of_nil].
Defined.

Lemma criteria_diff_unvalidated_domains_witness :
  criteriaDiff "user" user_criteria_diff = Done None.
Proof.
  apply (criteria_diff_unvalidated_domains "user" user_criteria_diff [∅]).
  - unfold unvalidatedDomains. rewrite !elem_of_cons. tauto.
  - reflexivity.
Defined.

Lemma pack_secret_last_match_witness :
  packSecret shared_url_state "https://h/" = Done "new".
Proof.
  apply (pack_secret_last_match shared_url_state "https://h/"
           [old_block] [other_block] new_block).
  - reflexivity.
  - repeat constructor; by eexists.
  - reflexivity.
  - by intros b' ->%list_elem_of_singleton.
Defined.

Lemma handler_round_trip_witness :
  ∃ h m,
    unpackHandler [] (block_value other_block) = Done [h]
    ∧ packHandler shared_url_state h = Done m
    ∧ m !! "secret" = Some (VString "x")
    ∧ m !! "custom_http_headers" = None.
Proof.
  destruct (handler_round_trip shared_url_state
              [old_block; new_block; other_block] other_block)
    as (h & m & Hunpack & Hpack & _ & Hsecret & _ & _ & Hheaders).
  - reflexivity.
  - repeat constructor; by eexists.
  - rewrite !elem_of_cons. tauto.
  - done.
  - intros b'. rewrite !elem_of_cons, elem_of_nil.
    by intros [->|[->|[->|[]]]].
  - exists h, m. split; [|by split].
    exact Hunpack.
Defined.

Lemma registry_tables_agree_witness :
  domainUnpackLookup !! "build" = Some unpackBuildCriteria
  ∧ domainPackLookup !! "build" = Some packBuildCriteria
  ∧ domainCriteriaValidationLookup !! "build" = Some buildCriteriaValidation.
Proof.
  apply (registry_tables_agree "build" BuildWebhookCriteria). reflexivity.
Defined.

Lemma unknown_domain_criteria_panics_witness :
  unpackCriteria one_criteria_data "npm" = Panic
  ∧ createWebhook (client := sample_client 201 "") "npm" one_criteria_data
    = Panic.
Proof.
  destruct (unknown_domain_criteria_panics (client := sample_client 201 "")
              "npm" one_criteria_data
              (criteria_block ["a/**"] ["tmp/**"]) not_a_domain eq_refl)
    as (Hcriteria & _ & Hcreate & _).
  by split.
Defined.

Lemma pack_criteria_patterns_witness :
  packCriteria docker_state "docker" decoded_criteria
  = Done (setValue (MkLens docker_state) "criteria"
            (VSet [VMap (<["exclude_patterns" := VSet []]>
                          (<["include_patterns" := VSet [VString "a/**"]]>
                             decoded_criteria))])).
Proof.
  apply (pack_criteria_patterns "docker" docker_state decoded_criteria
           decoded_criteria (() : @Resource sample_host)
           Done ["a/**"] []).
  - reflexivity.
  - reflexivity.
  - reflexivity.
  - right. right. reflexivity.
  - right. left. by split.
Defined.

Lemma pack_webhook_diagnostics_witness :
  ∃ data, packWebhook "docker" docker_state docker_webhook
          = Done (data, DiagNil).
Proof.
  destruct (packWebhook "docker" docker_state docker_webhook)
    as [[data diags]|] eqn:Hrun; [|discriminate Hrun].
  exists data.
  destruct (pack_webhook_diagnostics "docker" docker_state docker_webhook
              data diags Hrun) as [_ Hnil].
  by rewrite Hnil.
Defined.

Lemma retry_match_is_unanchored_witness :
  retryOnProxyError
    {| StatusCode := 500;
       Body := "error: " +:+ "proxy with key 'p1' not found" +:+ ", retry" |}
    None = true.
Proof.
  apply (retry_match_is_unanchored "proxy with key 'p1' not found"
           "error: " ", retry" 400 500 None None).
  reflexivity.
Defined.

Lemma unpack_criteria_dispatch_witness :
  ∃ t,
    domainCriteriaLookup !! "docker" = Some t
    ∧ unpackCriteria one_criteria_data "docker"
      = Go.bind (unpackerOf t
                   (list_to_map [
                      ("include_patterns", VSet [VString "a/**"]);
                      ("exclude_patterns", VSet [VString "tmp/**"]);
                      ("any_local", VBool true)])
                   {| IncludePatterns := ["a/**"];
                      ExcludePatterns := ["tmp/**"] |})
                (λ c, Done (TypedCriteria c)).
Proof.
  apply (unpack_criteria_dispatch "docker" one_criteria_data _
           ["a/**"] ["tmp/**"] docker_is_a_domain); reflexivity.
Defined.

Lemma unknown_domain_read_panics_witness :
  readWebhook (client := sample_client 200 "") "npm" docker_state = Panic.
Proof.
  by apply (unknown_domain_read_panics (client := sample_client 200 "")
              "npm" docker_state not_a_domain).
Defined.

End Scenarios.
